(** * depthRust / export.py: the preprocessing wrapper and the export pipeline

    A shallow embedding of [export.py].  The script wires calls into
    torch, Kornia, numpy and packaging together; those libraries are
    modelled as a record of external capabilities ([Externals]), while
    everything the script itself decides (branches, guards, messages,
    exit codes, the order of the stages) is translated line by line.

    Tensor elements are IEEE-754 values of Rocq's [SpecFloat]; float32
    arithmetic is [SpecFloat] at precision 24 and maximal exponent 128. *)

From Stdlib Require Import ZArith List Bool Ascii String Lia.
From Stdlib Require Import Floats.FloatClass Floats.SpecFloat DecimalString.
Import ListNotations.

Local Open Scope string_scope.
Local Open Scope list_scope.

(* ------------------------------------------------------------------ *)
(** * Python outcomes *)

(** An exception that derives from Python's [Exception]:
    its class name and [str(e)]. *)
Record Exn := mkExn { exn_class : string; exn_msg : string }.

(** What running a piece of Python gives: a value, a raised [Exception],
    or [SystemExit(code)] as raised by [sys.exit].  [SystemExit] derives
    from [BaseException], so [except Exception] lets it through. *)
Inductive outcome (A : Type) : Type :=
| Ok (a : A)
| Raise (e : Exn)
| Exit (code : Z).
Arguments Ok {A} a.
Arguments Raise {A} e.
Arguments Exit {A} code.

Definition obind {A B} (r : outcome A) (k : A -> outcome B) : outcome B :=
  match r with
  | Ok a => k a
  | Raise e => Raise e
  | Exit c => Exit c
  end.

Declare Scope outcome_scope.
Delimit Scope outcome_scope with outcome.
Notation "'let?' x := r 'in' k" := (obind r (fun x => k))
  (at level 10, x name, r at level 100, k at level 200) : outcome_scope.

(** A number as [str] prints it. *)
Definition dec (n : nat) : string := NilEmpty.string_of_uint (Nat.to_uint n).

(* ------------------------------------------------------------------ *)
(** * Scalars *)

Module F32.

Definition prec : Z := 24.
Definition emax : Z := 128.

(** binary64, the format of Python's own floats. *)
Definition prec64 : Z := 53.
Definition emax64 : Z := 1024.

(** Rounding of an exact value to float32, to nearest even: what
    [Tensor.float()] does to one element.  Zeros, infinities and NaN
    are kept. *)
Definition round (f : spec_float) : spec_float :=
  match f with
  | S754_finite s m e => binary_round prec emax s m e
  | _ => f
  end.

Definition of_Z (z : Z) : spec_float := binary_normalize prec emax z 0 false.

(** A Python decimal literal [n / 10^k] read as a float (binary64) and
    stored in a float32 tensor. *)
Definition of_decimal (n : Z) (pow10 : Z) : spec_float :=
  round (SFdiv prec64 emax64
               (binary_normalize prec64 emax64 n 0 false)
               (binary_normalize prec64 emax64 pow10 0 false)).

Definition one : spec_float := Eval vm_compute in of_Z 1.
Definition c255 : spec_float := Eval vm_compute in of_Z 255.

Definition div (a b : spec_float) : spec_float := SFdiv prec emax a b.
Definition sub (a b : spec_float) : spec_float := SFsub prec emax a b.
End F32.

(** [torch.isfinite] on one element. *)
Definition sf_isfinite (f : spec_float) : bool :=
  match f with
  | S754_zero _ | S754_finite _ _ _ => true
  | S754_infinity _ | S754_nan => false
  end.

(** The larger of two elements of one format; NaN wins, as in
    [torch.max]. *)
Definition sf_max (a b : spec_float) : spec_float :=
  match a, b with
  | S754_nan, _ | _, S754_nan => S754_nan
  | _, _ => if SFltb a b then b else a
  end.

(* ------------------------------------------------------------------ *)
(** * Tensors *)

Inductive dtype :=
| uint8 | int8 | int16 | int32 | int64 | bool_
| float16 | bfloat16 | float32 | float64.

Definition dtype_eqb (a b : dtype) : bool :=
  match a, b with
  | uint8, uint8 | int8, int8 | int16, int16 | int32, int32
  | int64, int64 | bool_, bool_ | float16, float16
  | bfloat16, bfloat16 | float32, float32 | float64, float64 => true
  | _, _ => false
  end.

(** A tensor: its dtype, its shape and its elements in row-major order.
    Whatever the dtype, an element is held as the exact value it
    denotes, [S754_finite s m e] being [(-1)^s * m * 2^e]; an integer
    [n] is [S754_finite _ |n| 0].  The elements of a float32 tensor are
    in float32 format. *)
Record Tensor := mkTensor {
  t_dtype : dtype;
  shape : list nat;
  data : list spec_float
}.

Definition dim (x : Tensor) : nat := List.length (shape x).

Definition numel (s : list nat) : nat := fold_right Nat.mul 1%nat s.

(** [x.float()] *)
Definition float (x : Tensor) : Tensor :=
  mkTensor float32 (shape x) (map F32.round (data x)).

(** [torch.isfinite(x).all()] *)
Definition isfinite_all (x : Tensor) : bool := forallb sf_isfinite (data x).

(** [x.max()]: no value on a tensor without elements, where torch
    raises. *)
Definition tensor_max (x : Tensor) : option spec_float :=
  match data x with
  | [] => None
  | a :: l => Some (fold_left sf_max l a)
  end.

(** [x / c] for a Python scalar [c]. *)
Definition div_scalar (x : Tensor) (c : spec_float) : Tensor :=
  mkTensor (t_dtype x) (shape x) (map (fun v => F32.div v c) (data x)).

(** ** Broadcasting *)

(** Shapes are aligned on the right; here both are given reversed. *)
Fixpoint broadcast_rev (a b : list nat) : option (list nat) :=
  match a, b with
  | [], l | l, [] => Some l
  | x :: a', y :: b' =>
      match broadcast_rev a' b' with
      | None => None
      | Some r =>
          if Nat.eqb x y then Some (x :: r)
          else if Nat.eqb x 1 then Some (y :: r)
          else if Nat.eqb y 1 then Some (x :: r)
          else None
      end
  end.

Definition broadcast_shapes (a b : list nat) : option (list nat) :=
  option_map (@rev nat) (broadcast_rev (rev a) (rev b)).

(** Row-major offset, in an operand of reversed shape [a_rev], of the
    element that the flat index [i] of the result (reversed shape
    [out_rev]) reads: a dimension of size 1 is read at 0. *)
Fixpoint offset_rev (out_rev a_rev : list nat) (i stride : nat) : nat :=
  match out_rev, a_rev with
  | d :: out', da :: a' =>
      ((if Nat.eqb da 1 then 0 else (i mod d) * stride)
       + offset_rev out' a' (i / d) (stride * da))%nat
  | _, _ => 0%nat
  end.

Definition broadcast_get (out : list nat) (x : Tensor) (i : nat) : spec_float :=
  nth (offset_rev (rev out) (rev (shape x)) i 1) (data x) S754_nan.

Definition RuntimeError (msg : string) : Exn := mkExn "RuntimeError" msg.

(** The first two sizes, from the right, that do not go together, and
    how far from the right they are. *)
Fixpoint first_mismatch (a b : list nat) (j : nat) : option (nat * nat * nat) :=
  match a, b with
  | x :: a', y :: b' =>
      if orb (Nat.eqb x y) (orb (Nat.eqb x 1) (Nat.eqb y 1))
      then first_mismatch a' b' (S j)
      else Some (x, y, j)
  | _, _ => None
  end.

(** The error of two shapes that cannot be broadcast. *)
Definition size_mismatch (a b : list nat) : Exn :=
  match first_mismatch (rev a) (rev b) 0 with
  | Some (x, y, j) =>
      RuntimeError
        ("The size of tensor a (" ++ dec x
         ++ ") must match the size of tensor b (" ++ dec y
         ++ ") at non-singleton dimension "
         ++ dec (Nat.max (List.length a) (List.length b) - 1 - j))
  | None => RuntimeError "The size of tensor a must match the size of tensor b"
  end.

(** An elementwise binary operation of two float32 tensors. *)
Definition broadcast_op (f : spec_float -> spec_float -> spec_float)
    (x y : Tensor) : outcome Tensor :=
  match broadcast_shapes (shape x) (shape y) with
  | None => Raise (size_mismatch (shape x) (shape y))
  | Some out =>
      Ok (mkTensor float32 out
            (map (fun i => f (broadcast_get out x i) (broadcast_get out y i))
                 (seq 0 (numel out))))
  end.

Definition tensor_sub := broadcast_op F32.sub.
Definition tensor_div := broadcast_op F32.div.

(** [y.unsqueeze(d)] *)
Definition unsqueeze (d : nat) (y : Tensor) : Tensor :=
  mkTensor (t_dtype y) (firstn d (shape y) ++ 1%nat :: skipn d (shape y)) (data y).

(* ------------------------------------------------------------------ *)
(** * Python objects, networks and the wrapper *)

(** What [torch.load] can give back: a dict (insertion-ordered, keyed
    by strings), a tensor, or some other pickled object. *)
#[warnings="-register-all"] Inductive PyObj :=
| PyDict (items : list (string * PyObj))
| PyTensor (t : Tensor)
| PyOther (repr : string).

(** [isinstance(o, dict)] *)
Definition isinstance_dict (o : PyObj) : bool :=
  match o with PyDict _ => true | _ => false end.

Fixpoint assoc {V} (k : string) (l : list (string * V)) : option V :=
  match l with
  | [] => None
  | (k', v) :: l' => if String.eqb k k' then Some v else assoc k l'
  end.

(** [k in o], for a dict [o] *)
Definition py_contains (k : string) (o : PyObj) : bool :=
  match o with
  | PyDict items => match assoc k items with Some _ => true | None => false end
  | _ => false
  end.

(** [o[k]], for a dict [o] *)
Definition py_getitem (o : PyObj) (k : string) : option PyObj :=
  match o with
  | PyDict items => assoc k items
  | _ => None
  end.

(** An [nn.Module] as the script sees it: which architecture it is, its
    train/eval flag and its parameter state. *)
Record Module := mkModule {
  arch : string;
  training : bool;
  state : list (string * Tensor)
}.

(** [net.eval()] *)
Definition module_eval (m : Module) : Module :=
  mkModule (arch m) false (state m).

(** The attributes of a [DepthKornia] instance. *)
Record DepthKornia := mkDepthKornia {
  net : Module;
  in_h : Z;
  in_w : Z;
  mean : Tensor;
  std : Tensor;
  dk_training : bool
}.

(** [torch.tensor([a, b, c]).view(1, 3, 1, 1)] *)
Definition channel_constants (a b c : spec_float) : Tensor :=
  mkTensor float32 [1; 3; 1; 1]%nat [a; b; c].

(** [DepthKornia.__init__] *)
Definition DepthKornia_init (net : Module) (in_h in_w : Z) : DepthKornia :=
  mkDepthKornia (module_eval net) in_h in_w
    (channel_constants (F32.of_decimal 485 1000) (F32.of_decimal 456 1000)
                       (F32.of_decimal 406 1000))
    (channel_constants (F32.of_decimal 229 1000) (F32.of_decimal 224 1000)
                       (F32.of_decimal 225 1000))
    true.

(** [DepthKornia.eval()]: the flag of the wrapper and of its child. *)
Definition DepthKornia_eval (m : DepthKornia) : DepthKornia :=
  mkDepthKornia (module_eval (net m)) (in_h m) (in_w m) (mean m) (std m) false.

(* ------------------------------------------------------------------ *)
(** * The libraries the script calls *)

(** The capabilities [export.py] takes from its environment.  An import
    is the outcome of the import statement; a call is a function to the
    outcome of the call. *)
Record Externals := mkExternals {
  (** the traced graph, [torch.jit.ScriptModule] *)
  Script : Type;
  (** [packaging.version.Version] objects *)
  Ver : Type;
  (** [import numpy as np], giving [np.__version__] *)
  import_numpy : outcome string;
  (** [from packaging.version import Version] *)
  import_Version : outcome unit;
  Version : string -> outcome Ver;
  Version_ge : Ver -> Ver -> outcome bool;
  (** [import kornia as K] *)
  import_kornia : outcome unit;
  (** [K.geometry.resize(x, (h, w), interpolation=.., align_corners=..)] *)
  kornia_resize : Tensor -> Z * Z -> string -> bool -> outcome Tensor;
  (** [torch.hub.load(repo, key, trust_repo=.., pretrained=..)] *)
  hub_load : string -> string -> bool -> bool -> outcome Module;
  (** [torch.load(path, map_location=..)] *)
  torch_load : string -> string -> outcome PyObj;
  (** [net.load_state_dict(sd, strict=..)]: the network as the call
      leaves it, and the exception if it raises *)
  load_state_dict : Module -> PyObj -> bool -> Module * option Exn;
  (** [net(x)] *)
  module_call : Module -> Tensor -> outcome Tensor;
  (** [torch.randn] at a size *)
  torch_randn : list Z -> outcome Tensor;
  (** [torch.jit.trace(model, example, strict=.., check_trace=..)] *)
  jit_trace : DepthKornia -> Tensor -> bool -> bool -> outcome Script;
  (** [from torch.utils.mobile_optimizer import optimize_for_mobile] *)
  import_optimize_for_mobile : outcome unit;
  optimize_for_mobile : Script -> outcome Script;
  (** [ts._save_for_lite_interpreter(path)] *)
  save_for_lite_interpreter : Script -> string -> outcome unit;
  (** [argparse]'s [p.parse_args()]: model, weights, size, out *)
  parse_args : outcome (string * option string * Z * string)
}.

(* ------------------------------------------------------------------ *)
(** * DepthKornia.forward *)

Section Wrapper.

Variable E : Externals.

Local Open Scope outcome_scope.

Definition max_of_empty : Exn :=
  RuntimeError "max(): Expected reduction dim to be specified for input.numel() == 0. Specify the reduction dim with the 'dim' argument.".

(** [DepthKornia.forward], statement by statement. *)
Definition forward (self : DepthKornia) (x : Tensor) : outcome Tensor :=
  let x := if negb (dtype_eqb (t_dtype x) float32) then float x else x in
  let? x :=
    (if isfinite_all x then
       match tensor_max x with
       | None => Raise max_of_empty
       | Some m => Ok (if SFltb F32.one m then div_scalar x F32.c255 else x)
       end
     else Ok x) in
  let? x := kornia_resize E x (in_h self, in_w self) "bilinear" false in
  let? x := (let? d := tensor_sub x (mean self) in tensor_div d (std self)) in
  let? y := module_call E (net self) x in
  let y := if Nat.eqb (dim y) 3 then unsqueeze 1 y else y in
  Ok y.

(** ** The five operations the specification names

    Each is the part of [forward] the specification describes under
    that name; [forward_spec] chains them as the specification's
    end-to-end equation does. *)

(** The conversion of lines 64-65. *)
Definition to_float32 (x : Tensor) : Tensor :=
  match t_dtype x with
  | float32 => x
  | _ => float x
  end.

(** Lines 64-67. *)
Definition normalize_dtype_and_range (x : Tensor) : outcome Tensor :=
  let x' := to_float32 x in
  if isfinite_all x' then
    match tensor_max x' with
    | None => Raise max_of_empty
    | Some m => if SFltb F32.one m then Ok (div_scalar x' F32.c255) else Ok x'
    end
  else Ok x'.

(** Lines 68-70. *)
Definition resize (x : Tensor) (target_h target_w : Z) : outcome Tensor :=
  kornia_resize E x (target_h, target_w) "bilinear" false.

(** Line 71. *)
Definition standardize (self : DepthKornia) (x : Tensor) : outcome Tensor :=
  let? d := tensor_sub x (mean self) in
  tensor_div d (std self).

(** Line 72. *)
Definition infer (self : DepthKornia) (x : Tensor) : outcome Tensor :=
  module_call E (net self) x.

(** Lines 73-74. *)
Definition normalize_output_rank (y : Tensor) : Tensor :=
  match shape y with
  | [_; _; _] => unsqueeze 1 y
  | _ => y
  end.

(** The three stages in front of the network. *)
Definition preprocess (self : DepthKornia) (x : Tensor) : outcome Tensor :=
  let? a := normalize_dtype_and_range x in
  let? b := resize a (in_h self) (in_w self) in
  standardize self b.

Definition forward_spec (self : DepthKornia) (x : Tensor) : outcome Tensor :=
  let? a := normalize_dtype_and_range x in
  let? b := resize a (in_h self) (in_w self) in
  let? c := standardize self b in
  let? y := infer self c in
  Ok (normalize_output_rank y).

(** What [forward] does with the tensor the first stage gives. *)
Definition forward_after_normalization (self : DepthKornia) (a : Tensor)
  : outcome Tensor :=
  let? b := resize a (in_h self) (in_w self) in
  let? c := standardize self b in
  let? y := infer self c in
  Ok (normalize_output_rank y).

End Wrapper.

(* ------------------------------------------------------------------ *)
(** * The stages as the specification words them

    Written a second time, from the words of the specification and
    with the operations of [SpecFloat] only: none of the definitions
    [forward] is made of is used here. *)

Module Spec.

(** 1.0 and 255.0 in float32. *)
Definition one : spec_float := S754_finite false 8388608 (-23).
Definition c255 : spec_float := S754_finite false 16711680 (-16).


(** "If the input's numeric representation is not the floating-point
    type used internally, convert it": each element is rounded to
    float32. *)
Definition to_float32 (v : spec_float) : spec_float :=
  match v with
  | S754_finite s m e => binary_round 24 128 s m e
  | _ => v
  end.





End Spec.

(* ------------------------------------------------------------------ *)
(** * Strings as Python prints them *)

(** [str.lower()] on one character.  Only A-Z change; a key of
    [MODEL_KEY_MAP] is plain ASCII, so no other character can turn a
    string into one of the keys. *)
Definition lower_ascii (c : ascii) : ascii :=
  let n := nat_of_ascii c in
  if andb (Nat.leb 65 n) (Nat.leb n 90) then ascii_of_nat (n + 32) else c.

Fixpoint lower (s : string) : string :=
  match s with
  | EmptyString => EmptyString
  | String c s' => String (lower_ascii c) (lower s')
  end.

(** [repr] of a [str] without quotes in it, and of a list of them. *)
Definition repr_str (s : string) : string := "'" ++ s ++ "'".

Definition repr_list (l : list string) : string :=
  "[" ++ String.concat ", " (map repr_str l) ++ "]".

(** Truth value of an [Optional[str]]: [None] and the empty string are
    false. *)
Definition truthy (o : option string) : bool :=
  match o with
  | None => false
  | Some s => negb (String.eqb s "")
  end.

(** [MODEL_KEY_MAP], in insertion order. *)
Definition MODEL_KEY_MAP : list (string * string) :=
  [ ("midas_small", "MiDaS_small");
    ("dpt_swin2_tiny_256", "DPT_Swin2_Tiny_256");
    ("dpt_levit_224", "DPT_LeViT_224");
    ("midas_v21_small_256", "MiDaS_small") ].

(* ------------------------------------------------------------------ *)
(** * The export pipeline *)

Section Pipeline.

Variable E : Externals.

(** What the process has written so far: what each [print] call sent to
    the two streams, one entry per call (the text of an entry may hold
    line breaks), and the artifacts saved, latest last. *)
Record World := mkWorld {
  stdout : list string;
  stderr : list string;
  files : list (string * Script E)
}.

(** Python statements: a state transformer with an outcome. *)
Definition M (A : Type) : Type := World -> outcome A * World.

Definition ret {A} (a : A) : M A := fun w => (Ok a, w).

Definition bind {A B} (c : M A) (k : A -> M B) : M B :=
  fun w =>
    match c w with
    | (Ok a, w') => k a w'
    | (Raise e, w') => (Raise e, w')
    | (Exit n, w') => (Exit n, w')
    end.

Notation "x <- c ;; k" := (bind c (fun x => k))
  (at level 61, c at next level, right associativity).
Notation "c ;; k" := (bind c (fun _ => k))
  (at level 61, right associativity).

(** A call into a library. *)
Definition call {A} (r : outcome A) : M A := fun w => (r, w).

(** [raise e] *)
Definition raise {A} (e : Exn) : M A := fun w => (Raise e, w).

(** [sys.exit(code)] *)
Definition sys_exit {A} (code : Z) : M A := fun w => (Exit code, w).

(** [print(line)] and [print(line, file=sys.stderr)] *)
Definition print (line : string) : M unit :=
  fun w => (Ok tt, mkWorld (stdout w ++ [line]) (stderr w) (files w)).

Definition eprint (line : string) : M unit :=
  fun w => (Ok tt, mkWorld (stdout w) (stderr w ++ [line]) (files w)).

(** [try: body  except Exception as e: handler]: what the body printed
    or wrote before it raised stays. *)
Definition try_except {A} (body : M A) (handler : Exn -> M A) : M A :=
  fun w =>
    match body w with
    | (Raise e, w') => handler e w'
    | r => r
    end.

(** [ts._save_for_lite_interpreter(out_path)]: the artifact exists once
    the call returns. *)
Definition save (ts : Script E) (out_path : string) : M unit :=
  fun w =>
    match save_for_lite_interpreter E ts out_path with
    | Ok _ => (Ok tt, mkWorld (stdout w) (stderr w) (files w ++ [(out_path, ts)]))
    | Raise e => (Raise e, w)
    | Exit c => (Exit c, w)
    end.

(** ** Module level: lines 25-38 *)

Definition numpy_error : string :=
  "ERROR: numpy>=2 detected. Install numpy<2 (e.g., uv pip install 'numpy<2').".

Definition numpy_guard : M unit :=
  try_except
    (np_version <- call (import_numpy E) ;;
     call (import_Version E) ;;
     a <- call (Version E np_version) ;;
     b <- call (Version E "2.0.0") ;;
     ge <- call (Version_ge E a b) ;;
     if ge : bool then eprint numpy_error ;; sys_exit 1 else ret tt)
    (fun _ => ret tt).

Definition kornia_guard : M unit :=
  try_except
    (call (import_kornia E))
    (fun e => eprint "Kornia is required. Install with: uv pip install kornia" ;;
              raise e).

(** ** load_midas_model *)

Definition unknown_model (model_key : string) : string :=
  "Unknown --model " ++ model_key ++ ". Choices: "
    ++ repr_list (map fst MODEL_KEY_MAP).

(** Lines 79-82. *)
Definition resolve_architecture (model_key : string) : M string :=
  match assoc (lower model_key) MODEL_KEY_MAP with
  | None => eprint (unknown_model model_key) ;; sys_exit 2
  | Some hub_key => ret hub_key
  end.

Definition load_warning (e : Exn) : string :=
  "Warning: load_state_dict(strict=False) failed: " ++ exn_msg e.

(** Lines 87-88. *)
Definition unwrap_state_dict (sd : PyObj) : PyObj :=
  if andb (isinstance_dict sd) (py_contains "state_dict" sd)
  then match py_getitem sd "state_dict" with Some v => v | None => sd end
  else sd.

Definition load_midas_model (model_key : string) (weights : option string)
  : M Module :=
  hub_key <- resolve_architecture model_key ;;
  net <- call (hub_load E "intel-isl/MiDaS" hub_key true false) ;;
  net <- (match weights with
          | Some path =>
              if truthy weights then
                sd <- call (torch_load E path "cpu") ;;
                let sd := unwrap_state_dict sd in
                let (net, raised) := load_state_dict E net sd false in
                match raised with
                | None => ret net
                | Some e => eprint (load_warning e) ;; ret net
                end
              else ret net
          | None => ret net
          end) ;;
  ret (module_eval net).

(** ** export *)

Definition export (model_name : string) (weights_path : option string)
    (size : Z) (out_path : string) : M unit :=
  base <- load_midas_model model_name weights_path ;;
  let model := DepthKornia_eval (DepthKornia_init base size size) in
  example <- call (torch_randn E [1; 3; size; size]%Z) ;;
  ts <- call (jit_trace E model example false false) ;;
  ts <- try_except
          (call (import_optimize_for_mobile E) ;;
           call (optimize_for_mobile E ts))
          (fun _ => ret ts) ;;
  save ts out_path ;;
  print ("Wrote " ++ out_path).

(** ** The stages the specification names

    [export] after the network is there, cut where the specification
    cuts it; [export_stages] chains the pieces. *)

(** Lines 99-104. *)
Definition build_export_graph (network : Module) (size : Z) : M (Script E) :=
  let model := DepthKornia_eval (DepthKornia_init network size size) in
  example <- call (torch_randn E [1; 3; size; size]%Z) ;;
  call (jit_trace E model example false false).

(** Lines 106-110. *)
Definition optimize_for_constrained_runtime (graph : Script E) : M (Script E) :=
  try_except
    (call (import_optimize_for_mobile E) ;;
     call (optimize_for_mobile E graph))
    (fun _ => ret graph).

(** Lines 112-113. *)
Definition serialize (graph : Script E) (out_path : string) : M unit :=
  save graph out_path ;;
  print ("Wrote " ++ out_path).

Definition export_stages (network : Module) (size : Z) (out_path : string)
  : M unit :=
  ts <- build_export_graph network size ;;
  ts <- optimize_for_constrained_runtime ts ;;
  serialize ts out_path.

(** ** The script as a process *)

Definition main : M unit :=
  numpy_guard ;;
  kornia_guard ;;
  args <- call (parse_args E) ;;
  let '(m, w, s, o) := args in
  export m w s o.

(** Exit status of the interpreter: an uncaught exception gives 1. *)
Definition exit_status {A} (r : outcome A) : Z :=
  match r with
  | Ok _ => 0
  | Raise _ => 1
  | Exit c => c
  end.

End Pipeline.

Arguments mkWorld {E}.
Arguments stdout {E}.
Arguments stderr {E}.
Arguments files {E}.
Arguments ret {E A}.
Arguments bind {E A B}.
Arguments call {E A}.
Arguments raise {E A}.
Arguments sys_exit {E A}.
Arguments print {E}.
Arguments eprint {E}.
Arguments try_except {E A}.
Arguments save {E}.

Notation "x <- c ;; k" := (bind c (fun x => k))
  (at level 61, c at next level, right associativity).
Notation "c ;; k" := (bind c (fun _ => k))
  (at level 61, right associativity).

(** The world after one more [print] on the error stream. *)
Definition warned {E} (w : World E) (line : string) : World E :=
  mkWorld (stdout w) (stderr w ++ [line]) (files w).

(** The world after a line on the output stream and one more artifact. *)
Definition written {E} (w : World E) (out_path : string) (ts : Script E)
  : World E :=
  mkWorld (stdout w ++ [("Wrote " ++ out_path)%string]) (stderr w)
          (files w ++ [(out_path, ts)]).

(** The line of the Kornia guard. *)
Definition kornia_required : string :=
  "Kornia is required. Install with: uv pip install kornia".

(* ------------------------------------------------------------------ *)
(** * 8-bit images *)

(** The element of a uint8 tensor that holds [n]. *)
Definition byte (n : nat) : spec_float :=
  match n with
  | O => S754_zero false
  | S _ => S754_finite false (Pos.of_nat n) 0
  end.

(** A tensor of dtype uint8, every element one of 0..255. *)
Definition byte_image (x : Tensor) : Prop :=
  t_dtype x = uint8 /\
  forall v, In v (data x) -> exists n, (n <= 255)%nat /\ v = byte n.

(** [0.0 <= v <= 1.0] *)
Definition in_unit_range (v : spec_float) : bool :=
  andb (SFleb (S754_zero false) v) (SFleb v F32.one).

(** The byte [n] once [x.float()] has converted it. *)
Definition byte_f32 (n : nat) : spec_float := F32.round (byte n).

(** What is checked of every byte, and of every two bytes, by running
    through them. *)
Definition byte_facts (n : nat) : bool :=
  andb (sf_isfinite (byte_f32 n))
    (andb (in_unit_range (F32.div (byte_f32 n) F32.c255))
       (andb (implb (Nat.leb n 1) (andb (negb (SFltb F32.one (byte_f32 n)))
                                        (in_unit_range (byte_f32 n))))
             (implb (Nat.leb 2 n) (SFltb F32.one (byte_f32 n))))).

Definition byte_pair_facts (i j : nat) : bool :=
  implb (negb (SFltb F32.one (sf_max (byte_f32 i) (byte_f32 j))))
        (andb (negb (SFltb F32.one (byte_f32 i)))
              (negb (SFltb F32.one (byte_f32 j)))).

(* ------------------------------------------------------------------ *)
(** * A concrete environment

    One instance of [Externals], small enough to run the script on:
    the theorems below quantify over every instance, and their
    examples are evaluated on this one. *)

Module Demo.

(** The traced graph: what was traced, and whether it was rewritten. *)
Inductive script :=
| Traced (model : DepthKornia) (example : Tensor)
| Optimized (s : script).

Definition shape_eqb (a b : list nat) : bool :=
  if list_eq_dec Nat.eq_dec a b then true else false.

(** ** [nn.Module.load_state_dict] *)

(** A double quote, and the break between two collected errors. *)
Definition dquote : string := String "034" EmptyString.
Definition break_tab : string := String "010" (String "009" EmptyString).

(** [repr] of a [torch.Size], and of the type of an object; an object
    other than a dict or a tensor is printed with the text it carries. *)
Definition torch_size (s : list nat) : string :=
  "torch.Size([" ++ String.concat ", " (map dec s) ++ "])".

Definition type_repr (o : PyObj) : string :=
  match o with
  | PyDict _ => "<class 'dict'>"
  | PyTensor _ => "<class 'torch.Tensor'>"
  | PyOther text => text
  end.

(** The class of the network of an architecture. *)
Definition class_name (m : Module) : string :=
  if String.eqb (arch m) "MiDaS_small" then "MidasNet_small" else arch m.

(** [param.copy_(input_param)]: the parameter keeps its dtype and shape
    and takes the elements; a float32 parameter gets them converted as
    [x.float()] converts.  This zoo has float32 parameters only. *)
Definition copy_ (t v : Tensor) : Tensor :=
  mkTensor (t_dtype t) (shape t)
    (data (if dtype_eqb (t_dtype v) (t_dtype t) then v else float v)).

Definition not_a_tensor (name : string) (o : PyObj) : string :=
  "While copying the parameter named " ++ dquote ++ name ++ dquote
  ++ ", expected torch.Tensor or Tensor-like object from checkpoint but received "
  ++ type_repr o.

Definition size_error (name : string) (v t : Tensor) : string :=
  "size mismatch for " ++ name ++ ": copying a param with shape "
  ++ torch_size (shape v) ++ " from checkpoint, the shape in current model is "
  ++ torch_size (shape t) ++ ".".

Definition IndexError : Exn :=
  mkExn "IndexError" "index 0 is out of bounds for dimension 0 with size 0".

(** What loading has done so far: the parameters as they are now, the
    errors collected, the names that were missing, and the exception
    that stopped it, if one did. *)
Record loading := mkLoading {
  loaded : list (string * Tensor);
  errors : list string;
  missing : list string;
  stopped : option Exn
}.

(** The own parameters, one after the other.  A value found under the
    name of a parameter must be a tensor.  For a parameter of no
    dimension a tensor of one dimension stands for its first element
    (reading it fails when there is none, which ends the loading).  A
    tensor of another shape is an error and the parameter stays; a
    tensor of the same shape is copied. *)
Fixpoint load_params (items : list (string * PyObj))
    (params : list (string * Tensor)) : loading :=
  match params with
  | [] => mkLoading [] [] [] None
  | (name, t) :: rest =>
      match assoc name items with
      | None =>
          let r := load_params items rest in
          mkLoading ((name, t) :: loaded r) (errors r) (name :: missing r)
                    (stopped r)
      | Some (PyTensor v) =>
          let first :=
            match shape t, shape v with
            | [], [_] =>
                match data v with
                | [] => None
                | d :: _ => Some (mkTensor (t_dtype v) [] [d])
                end
            | _, _ => Some v
            end in
          match first with
          | None => mkLoading ((name, t) :: rest) [] [] (Some IndexError)
          | Some v' =>
              let r := load_params items rest in
              if shape_eqb (shape v') (shape t)
              then mkLoading ((name, copy_ t v') :: loaded r) (errors r)
                             (missing r) (stopped r)
              else mkLoading ((name, t) :: loaded r)
                             (size_error name v' t :: errors r)
                             (missing r) (stopped r)
          end
      | Some o =>
          let r := load_params items rest in
          mkLoading ((name, t) :: loaded r) (not_a_tensor name o :: errors r)
                    (missing r) (stopped r)
      end
  end.

(** The keys of the checkpoint that name no own parameter. *)
Definition unexpected_keys (items : list (string * PyObj)) (m : Module)
  : list string :=
  map fst (filter (fun kv => match assoc (fst kv) (state m) with
                             | Some _ => false
                             | None => true
                             end) items).

Definition quoted_keys (keys : list string) : string :=
  String.concat ", " (map (fun k => (dquote ++ k ++ dquote)%string) keys).

(** With [strict=True] missing and unexpected keys are errors too, put
    in front of the others. *)
Definition strict_errors (strict : bool) (missing_keys unexpected : list string)
  : list string :=
  if strict then
    (match missing_keys with
     | [] => []
     | _ => [("Missing key(s) in state_dict: " ++ quoted_keys missing_keys
              ++ ". ")%string]
     end)
    ++ (match unexpected with
        | [] => []
        | _ => [("Unexpected key(s) in state_dict: " ++ quoted_keys unexpected
                 ++ ". ")%string]
        end)
  else [].

(** Anything but a mapping is refused before the network is touched.
    Otherwise the parameters are loaded, and the errors collected on
    the way are raised together at the end, the parameters that could
    be copied staying copied. *)
Definition nn_load_state_dict (m : Module) (sd : PyObj) (strict : bool)
  : Module * option Exn :=
  match sd with
  | PyDict items =>
      let r := load_params items (state m) in
      let m' := mkModule (arch m) (training m) (loaded r) in
      match stopped r with
      | Some e => (m', Some e)
      | None =>
          match strict_errors strict (missing r) (unexpected_keys items m)
                ++ errors r with
          | [] => (m', None)
          | all =>
              (m', Some (RuntimeError
                           ("Error(s) in loading state_dict for "
                            ++ class_name m ++ ":" ++ break_tab
                            ++ String.concat break_tab all)))
          end
      end
  | o => (m, Some (mkExn "TypeError"
                     ("Expected state_dict to be dict-like, got "
                      ++ type_repr o ++ ".")))
  end.

(** A parameter vector of one element. *)
Definition param (z : Z) : Tensor := mkTensor float32 [1]%nat [F32.of_Z z].

(** The model zoo: one architecture, with two parameters. *)
Definition midas_small : Module :=
  mkModule "MiDaS_small" true
    [("scratch.weight", param 0); ("scratch.bias", param 0)].

Definition hub (repo key : string) (trust_repo pretrained : bool)
  : outcome Module :=
  if String.eqb key "MiDaS_small" then Ok midas_small
  else Raise (RuntimeError ("Cannot find callable " ++ key ++ " in hubconf")).

(** A parameter state, and one that has an entry named like the
    wrapper key. *)
Definition plain_state : list (string * PyObj) :=
  [("scratch.weight", PyTensor (param 7)); ("scratch.bias", PyTensor (param 9))].

Definition odd_state : list (string * PyObj) :=
  [("state_dict", PyTensor (param 1)); ("scratch.weight", PyTensor (param 7))].

(** The files on disk. *)
Definition disk (path map_location : string) : outcome PyObj :=
  if String.eqb path "plain.pt" then Ok (PyDict plain_state)
  else if String.eqb path "plain_wrapped.pt"
       then Ok (PyDict [("state_dict", PyDict plain_state)])
  else if String.eqb path "odd.pt" then Ok (PyDict odd_state)
  else if String.eqb path "odd_wrapped.pt"
       then Ok (PyDict [("state_dict", PyDict odd_state)])
  else if String.eqb path "mismatch.pt"
       then Ok (PyDict [("scratch.weight", PyTensor (mkTensor float32 [2]%nat
                                                      [F32.of_Z 1; F32.of_Z 2]))])
  else Raise (mkExn "FileNotFoundError"
                ("[Errno 2] No such file or directory: " ++ repr_str path)).

(** Resizing to the size the input already has changes nothing; other
    sizes are left out of this instance. *)
Definition resize_same (x : Tensor) (size : Z * Z) (interpolation : string)
    (align_corners : bool) : outcome Tensor :=
  match rev (shape x) with
  | w :: h :: _ =>
      if andb (Z.eqb (Z.of_nat h) (fst size)) (Z.eqb (Z.of_nat w) (snd size))
      then Ok x
      else Raise (RuntimeError "resize: size not covered")
  | _ => Raise (RuntimeError "resize: input must have at least two dimensions")
  end.

(** A network that gives back the first channel, as [1, h, w]. *)
Definition first_channel (m : Module) (x : Tensor) : outcome Tensor :=
  match shape x with
  | [1; 3; h; w]%nat => Ok (mkTensor float32 [1; h; w]%nat (firstn (h * w) (data x)))
  | _ => Raise (RuntimeError "expected input of shape [1, 3, H, W]")
  end.

Definition zeros (size : list Z) : outcome Tensor :=
  if forallb (Z.leb 0) size
  then let s := map Z.to_nat size in
       Ok (mkTensor float32 s (repeat (S754_zero false) (numel s)))
  else Raise (RuntimeError "Trying to create tensor with negative dimension").

Definition version (s : string) : outcome (list Z) :=
  if String.eqb s "1.26.4" then Ok [1; 26; 4]%Z
  else if String.eqb s "2.0.0" then Ok [2; 0; 0]%Z
  else if String.eqb s "2.1.3" then Ok [2; 1; 3]%Z
  else Raise (mkExn "InvalidVersion" ("Invalid version: " ++ repr_str s)).

Fixpoint version_ge (a b : list Z) : bool :=
  match a, b with
  | x :: a', y :: b' => if Z.ltb y x then true
                        else if Z.ltb x y then false else version_ge a' b'
  | [], _ :: _ => false
  | _, [] => true
  end.

(** The environment with a given tracer: a numpy of the given version,
    an optimizer that is importable or not, and the command line
    [--size 2]. *)
Definition env_traced_by
    (trace : DepthKornia -> Tensor -> bool -> bool -> outcome script)
    (numpy_version : outcome string) (optimizer : outcome unit)
  : Externals :=
  {| Script := script;
     Ver := list Z;
     import_numpy := numpy_version;
     import_Version := Ok tt;
     Version := version;
     Version_ge := fun a b => Ok (version_ge a b);
     import_kornia := Ok tt;
     kornia_resize := resize_same;
     hub_load := hub;
     torch_load := disk;
     load_state_dict := nn_load_state_dict;
     module_call := first_channel;
     torch_randn := zeros;
     jit_trace := trace;
     import_optimize_for_mobile := optimizer;
     optimize_for_mobile := fun ts => Ok (Optimized ts);
     save_for_lite_interpreter := fun ts path => Ok tt;
     parse_args := Ok ("midas_small", None, 2%Z, "depth_kornia.torchscript.ptl") |}.

(** Tracing runs [forward] once on the example, with the libraries of
    [E0]: what [forward] raises, tracing raises. *)
Definition trace_by_running (E0 : Externals) (model : DepthKornia)
    (example : Tensor) (strict check_trace : bool) : outcome script :=
  match forward E0 model example with
  | Ok _ => Ok (Traced model example)
  | Raise e => Raise e
  | Exit c => Exit c
  end.

(** The libraries [forward] runs on while it is traced. *)
Definition runner : Externals :=
  env_traced_by (fun model example strict check_trace => Ok (Traced model example))
                (Ok "1.26.4") (Ok tt).

Definition env (numpy_version : outcome string) (optimizer : outcome unit)
  : Externals :=
  env_traced_by (trace_by_running runner) numpy_version optimizer.

(** What a failed [import] raises. *)
Definition ModuleNotFoundError (name : string) : Exn :=
  mkExn "ModuleNotFoundError" ("No module named " ++ repr_str name).

Definition std_env : Externals := env (Ok "1.26.4") (Ok tt).

Definition no_optimizer : Externals :=
  env (Ok "1.26.4") (Raise (ModuleNotFoundError "torch.utils.mobile_optimizer")).

Definition numpy2 : Externals := env (Ok "2.1.3") (Ok tt).

Definition no_numpy : Externals := env (Raise (ModuleNotFoundError "numpy")) (Ok tt).

Definition start (E : Externals) : World E := mkWorld [] [] [].

(** What tracing gives for [--size 2]. *)
Definition example_2x2 : Tensor :=
  mkTensor float32 [1; 3; 2; 2]%nat (repeat (S754_zero false) 12).

Definition traced_2x2 : script :=
  Traced (DepthKornia_eval (DepthKornia_init (module_eval midas_small) 2 2))
         example_2x2.

(** ** Images *)

(** An 8-bit image with a white pixel. *)
Definition bytes_image : Tensor :=
  mkTensor uint8 [1; 3; 1; 1]%nat
    [ S754_finite false 255 0; S754_zero false; S754_finite false 128 0 ].

(** A float32 image in [0, 1]: 1.0, 0.0 and 0.5. *)
Definition unit_image : Tensor :=
  mkTensor float32 [1; 3; 1; 1]%nat
    [ F32.one; S754_zero false; S754_finite false 8388608 (-24) ].

(** A float32 image with a NaN next to 200.0 and 255.0. *)
Definition nan_image : Tensor :=
  mkTensor float32 [1; 3; 1; 1]%nat
    [ S754_finite false 13107200 (-16); S754_nan; F32.c255 ].

(** A float64 image whose largest value is the double just above 1.0;
    the other two channels hold 0.5 and 0.25. *)
Definition just_above_one : Tensor :=
  mkTensor float64 [1; 3; 1; 1]%nat
    [ S754_finite false 4503599627370497 (-52);
      S754_finite false 4503599627370496 (-53);
      S754_finite false 4503599627370496 (-54) ].

(** 1.0 and 255.0 as doubles. *)
Definition one64 : spec_float := S754_finite false 4503599627370496 (-52).
Definition c255_64 : spec_float := S754_finite false 8972014882803712 (-45).

(** A wrapper for 1x1 inputs. *)
Definition wrapper_1x1 : DepthKornia :=
  DepthKornia_init (mkModule "MiDaS_small" true []) 1 1.

(** ** Variants *)

(** [E] with another Kornia import, network, tracer and save call. *)
Definition variant (E : Externals) (kornia : outcome unit)
    (network : Module -> Tensor -> outcome Tensor)
    (trace : DepthKornia -> Tensor -> bool -> bool -> outcome (Script E))
    (save_call : Script E -> string -> outcome unit) : Externals :=
  {| Script := Script E;
     Ver := Ver E;
     import_numpy := import_numpy E;
     import_Version := import_Version E;
     Version := Version E;
     Version_ge := Version_ge E;
     import_kornia := kornia;
     kornia_resize := kornia_resize E;
     hub_load := hub_load E;
     torch_load := torch_load E;
     load_state_dict := load_state_dict E;
     module_call := network;
     torch_randn := torch_randn E;
     jit_trace := trace;
     import_optimize_for_mobile := import_optimize_for_mobile E;
     optimize_for_mobile := optimize_for_mobile E;
     save_for_lite_interpreter := save_call;
     parse_args := parse_args E |}.

(** A network that gives back the first channel as a matrix [h, w]. *)
Definition first_channel_matrix (m : Module) (x : Tensor) : outcome Tensor :=
  match shape x with
  | [1; 3; h; w]%nat => Ok (mkTensor float32 [h; w]%nat (firstn (h * w) (data x)))
  | _ => Raise (RuntimeError "expected input of shape [1, 3, H, W]")
  end.

(** [std_env] with another Kornia import and another network, traced
    by running [forward] on that network. *)
Definition with_network (kornia : outcome unit)
    (network : Module -> Tensor -> outcome Tensor) : Externals :=
  variant std_env kornia network
    (trace_by_running
       (variant std_env kornia network (jit_trace std_env)
                (save_for_lite_interpreter std_env)))
    (save_for_lite_interpreter std_env).

Definition matrix_net : Externals := with_network (Ok tt) first_channel_matrix.

Definition no_kornia : Externals :=
  with_network (Raise (ModuleNotFoundError "kornia")) first_channel.

(** A network that takes only sides that are multiples of 32. *)
Definition StrideError : Exn :=
  RuntimeError "input height and width must be multiples of 32".

Definition stride_32_net (m : Module) (x : Tensor) : outcome Tensor :=
  match shape x with
  | [1; 3; h; w]%nat =>
      if andb (Nat.eqb (h mod 32) 0) (Nat.eqb (w mod 32) 0)
      then Ok (mkTensor float32 [1; h; w]%nat (firstn (h * w) (data x)))
      else Raise StrideError
  | _ => Raise (RuntimeError "expected input of shape [1, 3, H, W]")
  end.

(** With that network the example of [--size 2] cannot be traced. *)
Definition no_tracing : Externals := with_network (Ok tt) stride_32_net.

(** ** More images *)

(** An 8-bit image with no byte above 1. *)
Definition dark_image : Tensor :=
  mkTensor uint8 [1; 3; 1; 1]%nat [ byte 1; byte 0; byte 1 ].

(** A one-channel and a two-channel float32 image, both 1 x 1. *)
Definition gray_image : Tensor :=
  mkTensor float32 [1; 1; 1; 1]%nat [ F32.one ].

Definition two_channel_image : Tensor :=
  mkTensor float32 [1; 2; 1; 1]%nat [ F32.one; S754_zero false ].

(** ** Worlds *)


(** What it raises on a tensor. *)
Definition not_a_dict_error : Exn :=
  mkExn "TypeError"
    "Expected state_dict to be dict-like, got <class 'torch.Tensor'>.".


(** The world after a full export to "out.ptl". *)
Definition exported : World std_env :=
  written (start std_env) "out.ptl" (Optimized traced_2x2).


End Demo.

(* ------------------------------------------------------------------ *)
(** * The wrapper: properties of [forward] *)

(** One step of a chain of library calls: look at its outcome. *)
Ltac outcome_step :=
  match goal with
  | |- context [obind ?r _] =>
      let v := fresh "v" in
      destruct r as [v| |]; cbn [obind]; try reflexivity
  end.

Section WrapperProperties.

Variable E : Externals.

Lemma to_float32_branch (x : Tensor) :
  (if negb (dtype_eqb (t_dtype x) float32) then float x else x) = to_float32 x.
Proof. unfold to_float32. destruct (t_dtype x); reflexivity. Qed.

Lemma normalize_output_rank_branch (y : Tensor) :
  (if Nat.eqb (dim y) 3 then unsqueeze 1 y else y) = normalize_output_rank y.
Proof.
  unfold normalize_output_rank, dim.
  destruct (shape y) as [|a [|b [|c [|d s]]]]; reflexivity.
Qed.

Lemma forward_chain (self : DepthKornia) (x : Tensor) :
  forward E self x = forward_spec E self x.
Proof.
  unfold forward, forward_spec, normalize_dtype_and_range, resize,
    standardize, infer.
  rewrite to_float32_branch.
  destruct (isfinite_all (to_float32 x)); cbn [obind].
  - destruct (tensor_max (to_float32 x)) as [m|]; cbn [obind]; [|reflexivity].
    destruct (SFltb F32.one m); cbn [obind]; repeat outcome_step;
      now rewrite normalize_output_rank_branch.
  - repeat outcome_step. now rewrite normalize_output_rank_branch.
Qed.

Lemma forward_normalizes_first (self : DepthKornia) (x : Tensor) :
  forward E self x
  = obind (normalize_dtype_and_range x) (forward_after_normalization E self).
Proof. rewrite forward_chain. reflexivity. Qed.

(** C4. Once the preprocessing has gone through and the wrapped network
    has returned [y0] of shape [(1, 1, h, w)] or [(1, h, w)], [forward]
    returns a tensor of rank 4 whose second dimension is 1: [y0] itself
    in the first case, [y0] with a dimension of size 1 inserted at
    position 1 in the second, its elements untouched. *)
Theorem forward_output_is_rank4_single_channel
    (self : DepthKornia) (x p y0 : Tensor) (h w : nat) :
  preprocess E self x = Ok p ->
  infer E self p = Ok y0 ->
  shape y0 = [1; 1; h; w]%nat \/ shape y0 = [1; h; w]%nat ->
  exists y, forward E self x = Ok y /\
    dim y = 4%nat /\ nth_error (shape y) 1 = Some 1%nat /\
    shape y = [1; 1; h; w]%nat /\ data y = data y0 /\
    (shape y0 = [1; 1; h; w]%nat -> y = y0) /\
    (shape y0 = [1; h; w]%nat -> y = unsqueeze 1 y0).
Proof.
  intros Hpre Hnet Hshape.
  exists (normalize_output_rank y0). split.
  - rewrite forward_chain. unfold forward_spec.
    unfold preprocess in Hpre.
    destruct (normalize_dtype_and_range x) as [a| |]; cbn [obind] in *;
      try discriminate.
    destruct (resize E a (in_h self) (in_w self)) as [b| |]; cbn [obind] in *;
      try discriminate.
    rewrite Hpre. cbn [obind]. now rewrite Hnet.
  - unfold normalize_output_rank, dim.
    destruct Hshape as [H4 | H3].
    + rewrite H4. rewrite H4. repeat split; try reflexivity.
      intros H. discriminate H.
    + rewrite H3. unfold unsqueeze. cbn [shape data firstn skipn app].
      rewrite H3. cbn. repeat split; try reflexivity.
      intros H. discriminate H.
Qed.

End WrapperProperties.

Lemma forward_output_is_rank4_single_channel_witness :
  exists y, forward Demo.std_env Demo.wrapper_1x1 Demo.bytes_image = Ok y /\
    dim y = 4%nat /\ nth_error (shape y) 1 = Some 1%nat.
Proof.
  destruct (forward_output_is_rank4_single_channel Demo.std_env
              Demo.wrapper_1x1 Demo.bytes_image
              (mkTensor float32 [1; 3; 1; 1]%nat
                 [ S754_finite false 9432605 (-22);
                   S754_finite true 8538404 (-22);
                   S754_finite false 14310716 (-25) ])
              (mkTensor float32 [1; 1; 1]%nat [ S754_finite false 9432605 (-22) ])
              1%nat 1%nat eq_refl eq_refl (or_intror eq_refl))
    as (y & Hy & Hd & Hc & _).
  exists y. repeat split; assumption.
Defined.

(** ** Range normalization *)

(** Comparing the other way round gives the opposite answer. *)
Lemma SFcompare_antisym (a b : spec_float) :
  SFcompare b a = option_map CompOpp (SFcompare a b).
Proof.
  destruct a as [sa|sa| |sa ma ea], b as [sb|sb| |sb mb eb]; cbn;
    try reflexivity;
    try (destruct sa; reflexivity); try (destruct sb; reflexivity);
    try (destruct sa, sb; reflexivity).
  destruct sa, sb; cbn; try reflexivity;
    rewrite (Z.compare_antisym ea eb);
    destruct (ea ?= eb)%Z; cbn; try reflexivity;
    now rewrite (Pos.compare_cont_antisym ma mb Eq).
Qed.

Lemma SFleb_not_SFltb (a b : spec_float) :
  SFleb a b = true -> SFltb b a = false.
Proof.
  unfold SFleb, SFltb. rewrite (SFcompare_antisym a b).
  destruct (SFcompare a b) as [[]|]; cbn; congruence.
Qed.

Lemma round_keeps_nonfinite (v : spec_float) :
  sf_isfinite v = false -> sf_isfinite (F32.round v) = false.
Proof. destruct v; cbn; congruence. Qed.

Lemma isfinite_all_false (x : Tensor) (v : spec_float) :
  In v (data x) -> sf_isfinite v = false -> isfinite_all x = false.
Proof.
  intros Hin Hv. unfold isfinite_all.
  destruct (forallb sf_isfinite (data x)) eqn:Hall; [|reflexivity].
  rewrite forallb_forall in Hall. rewrite (Hall v Hin) in Hv. discriminate.
Qed.

Lemma to_float32_keeps_nonfinite (x : Tensor) (v : spec_float) :
  In v (data x) -> sf_isfinite v = false ->
  exists v', In v' (data (to_float32 x)) /\ sf_isfinite v' = false.
Proof.
  intros Hin Hv. unfold to_float32.
  destruct (t_dtype x);
    try (exists (F32.round v); split;
         [apply in_map; exact Hin | apply round_keeps_nonfinite; exact Hv]).
  exists v. split; assumption.
Qed.

(** C2, as stated, fails: every element of [just_above_one] is finite
    and its maximum exceeds 1.0, yet the step divides nothing.  The
    conversion to float32 comes first and rounds the maximum to 1.0, so
    the result is [1.0; 0.5; 0.25], which is neither the converted
    elements divided by 255.0 nor the rounded quotients of the input. *)
Lemma just_above_one_not_rescaled :
  isfinite_all Demo.just_above_one = true /\
  (exists m, tensor_max Demo.just_above_one = Some m /\
             SFltb Demo.one64 m = true) /\
  exists r, normalize_dtype_and_range Demo.just_above_one = Ok r /\
    data r = [ F32.one; S754_finite false 8388608 (-24);
               S754_finite false 8388608 (-25) ] /\
    data r <> map (fun v => F32.div v F32.c255)
                  (data (to_float32 Demo.just_above_one)) /\
    data r <> map (fun v => F32.round (SFdiv F32.prec64 F32.emax64 v Demo.c255_64))
                  (data Demo.just_above_one).
Proof.
  split; [reflexivity|]. split.
  - eexists. split; reflexivity.
  - eexists. split; [reflexivity|]. split; [reflexivity|].
    split; vm_compute; discriminate.
Qed.

(** C2, amended.  With finiteness and the maximum taken on the tensor
    as converted to float32 (the input itself when it is float32
    already): when all elements are finite and the maximum is at most
    1.0 the step gives the converted tensor unchanged, and when the
    maximum exceeds 1.0 it gives every converted element divided by
    255.0 in float32, shape kept.  [forward] goes on with that tensor. *)
Theorem range_normalization_after_conversion
    (E : Externals) (self : DepthKornia) (x : Tensor) (m : spec_float) :
  isfinite_all (to_float32 x) = true ->
  tensor_max (to_float32 x) = Some m ->
  (SFleb m F32.one = true ->
     normalize_dtype_and_range x = Ok (to_float32 x) /\
     forward E self x = forward_after_normalization E self (to_float32 x)) /\
  (SFltb F32.one m = true ->
     exists r, normalize_dtype_and_range x = Ok r /\
       t_dtype r = t_dtype (to_float32 x) /\
       shape r = shape (to_float32 x) /\
       data r = map (fun v => SFdiv 24 128 v (S754_finite false 16711680 (-16)))
                    (data (to_float32 x)) /\
       forward E self x = forward_after_normalization E self r).
Proof.
  intros Hfin Hmax. rewrite forward_normalizes_first.
  unfold normalize_dtype_and_range.
  rewrite Hfin, Hmax. split.
  - intros Hle. now rewrite (SFleb_not_SFltb _ _ Hle).
  - intros Hlt. rewrite Hlt. eexists. split; [reflexivity|].
    repeat split.
Qed.

Lemma range_normalization_after_conversion_witness :
  normalize_dtype_and_range Demo.unit_image = Ok Demo.unit_image /\
  exists r, normalize_dtype_and_range Demo.bytes_image = Ok r /\
    t_dtype r = float32 /\ shape r = [1; 3; 1; 1]%nat /\
    data r = [ F32.one; S754_zero false; S754_finite false 8421505 (-24) ].
Proof.
  split.
  - exact (proj1 (proj1 (range_normalization_after_conversion Demo.std_env
                           Demo.wrapper_1x1 Demo.unit_image F32.one
                           eq_refl eq_refl) eq_refl)).
  - destruct (proj2 (range_normalization_after_conversion Demo.std_env
                       Demo.wrapper_1x1 Demo.bytes_image F32.c255
                       eq_refl eq_refl) eq_refl)
      as (r & Hr & Ht & Hs & Hd & _).
    exists r. repeat split; assumption.
Defined.

(** C3. Whenever some element of the input is not finite (NaN or an
    infinity) the rescaling branch is not entered: the step gives the
    tensor as converted to float32, whatever its other elements are,
    and [forward] goes on with it. *)
Theorem nonfinite_input_is_not_rescaled
    (E : Externals) (self : DepthKornia) (x : Tensor) (v : spec_float) :
  In v (data x) -> sf_isfinite v = false ->
  normalize_dtype_and_range x = Ok (to_float32 x) /\
  forward E self x = forward_after_normalization E self (to_float32 x).
Proof.
  intros Hin Hv.
  destruct (to_float32_keeps_nonfinite x v Hin Hv) as (v' & Hin' & Hv').
  rewrite forward_normalizes_first.
  unfold normalize_dtype_and_range.
  now rewrite (isfinite_all_false _ v' Hin' Hv').
Qed.

Lemma nonfinite_input_is_not_rescaled_witness :
  normalize_dtype_and_range Demo.nan_image = Ok Demo.nan_image.
Proof.
  apply (nonfinite_input_is_not_rescaled Demo.std_env Demo.wrapper_1x1
           Demo.nan_image S754_nan).
  - simpl. right. left. reflexivity.
  - reflexivity.
Defined.

(* ------------------------------------------------------------------ *)
(** * The pipeline: properties of [load_midas_model] and [export] *)

Lemma warned_neq_any {E} (w : World E) (line : string) : warned w line <> w.
Proof.
  intros H. apply (f_equal stderr) in H. cbn in H.
  apply (f_equal (@List.length string)) in H.
  rewrite length_app in H. cbn in H. lia.
Qed.

Section PipelineProperties.

Variable E : Externals.

(** A branch that left the world as it was did not print the line. *)
Ltac guard_kept :=
  let H := fresh "H" in
  intros H; try discriminate H; exfalso;
  apply (f_equal snd) in H; cbn [snd] in H; symmetry in H;
  exact (warned_neq_any _ _ H).

Lemma assoc_In {V} (k : string) (l : list (string * V)) (v : V) :
  assoc k l = Some v -> In (k, v) l.
Proof.
  induction l as [|[k' v'] l IH]; cbn; [discriminate|].
  destruct (String.eqb k k') eqn:Hk.
  - apply String.eqb_eq in Hk. intros [= ->]. left. now subst.
  - intros H. right. now apply IH.
Qed.

Lemma truthy_path (path : string) : path <> "" -> truthy (Some path) = true.
Proof.
  intros H. cbn. destruct (String.eqb path "") eqn:Hp; [|reflexivity].
  apply String.eqb_eq in Hp. contradiction.
Qed.

Lemma resolve_known (model_key hub_key : string) (w : World E) :
  assoc (lower model_key) MODEL_KEY_MAP = Some hub_key ->
  resolve_architecture E model_key w = (Ok hub_key, w).
Proof. intros H. unfold resolve_architecture. now rewrite H. Qed.

Lemma resolve_unknown (model_key : string) (w : World E) :
  assoc (lower model_key) MODEL_KEY_MAP = None ->
  resolve_architecture E model_key w
  = (Exit 2, warned w (unknown_model model_key)).
Proof. intros H. unfold resolve_architecture. now rewrite H. Qed.

(** [export] is the acquisition of the network followed by the stages. *)
Lemma export_unfold (model_name : string) (weights_path : option string)
    (size : Z) (out_path : string) (w : World E) :
  export E model_name weights_path size out_path w
  = (base <- load_midas_model E model_name weights_path ;;
     export_stages E base size out_path) w.
Proof.
  unfold export, export_stages, build_export_graph,
    optimize_for_constrained_runtime, serialize, bind.
  destruct (load_midas_model E model_name weights_path w) as [[base| |] w1];
    try reflexivity.
  destruct (call (torch_randn E [1; 3; size; size]%Z) w1) as [[ex| |] w2];
    reflexivity.
Qed.

Lemma export_after_load (model_name : string) (weights_path : option string)
    (size : Z) (out_path : string) (w w1 : World E) (r : outcome Module) :
  load_midas_model E model_name weights_path w = (r, w1) ->
  export E model_name weights_path size out_path w
  = match r with
    | Ok base => export_stages E base size out_path w1
    | Raise e => (Raise e, w1)
    | Exit c => (Exit c, w1)
    end.
Proof.
  intros H. rewrite export_unfold. unfold bind. rewrite H.
  destruct r; reflexivity.
Qed.

(** What [load_midas_model] does once the architecture is there and the
    weights file has been read. *)
Lemma load_with_weights (model_key hub_key path : string) (net0 : Module)
    (sd : PyObj) (w : World E) :
  assoc (lower model_key) MODEL_KEY_MAP = Some hub_key ->
  hub_load E "intel-isl/MiDaS" hub_key true false = Ok net0 ->
  path <> "" ->
  torch_load E path "cpu" = Ok sd ->
  load_midas_model E model_key (Some path) w
  = (Ok (module_eval (fst (load_state_dict E net0 (unwrap_state_dict sd) false))),
     match snd (load_state_dict E net0 (unwrap_state_dict sd) false) with
     | None => w
     | Some e => warned w (load_warning e)
     end).
Proof.
  intros Hkey Hhub Hpath Hload.
  unfold load_midas_model, bind.
  rewrite (resolve_known _ _ _ Hkey).
  unfold call at 1. rewrite Hhub.
  rewrite (truthy_path _ Hpath).
  unfold call at 1. rewrite Hload.
  destruct (load_state_dict E net0 (unwrap_state_dict sd) false) as [net1 [e|]];
    reflexivity.
Qed.

(** C5. A key that equals, case ignored, a key of [MODEL_KEY_MAP]
    resolves to the architecture mapped there.  A key that equals none
    of them prints the unknown-model line, which lists the valid keys,
    on the error stream and leaves through [sys.exit(2)]:
    [load_midas_model] and [export] end there, with exit status 2 and
    nothing else printed or written. *)
Theorem architecture_resolution (model_key : string) (w : World E) :
  (forall k a, In (k, a) MODEL_KEY_MAP -> lower model_key = lower k ->
     resolve_architecture E model_key w = (Ok a, w)) /\
  ((forall k a, In (k, a) MODEL_KEY_MAP -> lower model_key <> lower k) ->
     resolve_architecture E model_key w
     = (Exit 2, warned w (unknown_model model_key)) /\
     unknown_model model_key
     = ("Unknown --model " ++ model_key
        ++ ". Choices: ['midas_small', 'dpt_swin2_tiny_256', 'dpt_levit_224', 'midas_v21_small_256']")%string /\
     forall weights size out_path,
       load_midas_model E model_key weights w
       = (Exit 2, warned w (unknown_model model_key)) /\
       export E model_key weights size out_path w
       = (Exit 2, warned w (unknown_model model_key)) /\
       exit_status (fst (export E model_key weights size out_path w)) = 2%Z).
Proof.
  split.
  - intros k a Hin Hk. apply resolve_known. rewrite Hk.
    cbn in Hin.
    destruct Hin as [H|[H|[H|[H|[]]]]]; injection H as <- <-; reflexivity.
  - intros Hnone.
    assert (Hassoc : assoc (lower model_key) MODEL_KEY_MAP = None).
    { destruct (assoc (lower model_key) MODEL_KEY_MAP) as [a|] eqn:Ha;
        [|reflexivity].
      exfalso. apply assoc_In in Ha.
      assert (Hin := Ha). cbn in Ha.
      destruct Ha as [H|[H|[H|[H|[]]]]]; injection H as Hk _;
        apply (Hnone _ _ Hin); rewrite <- Hk; reflexivity. }
    split; [now apply resolve_unknown|]. split; [reflexivity|].
    intros weights size out_path.
    assert (Hload : load_midas_model E model_key weights w
                    = (Exit 2, warned w (unknown_model model_key))).
    { unfold load_midas_model, bind. now rewrite (resolve_unknown _ _ Hassoc). }
    split; [exact Hload|].
    rewrite (export_after_load _ _ _ _ _ _ _ Hload). split; reflexivity.
Qed.

(** C6, amended.  When the parameter state [S] has no entry named
    "state_dict" itself, a file whose top-level dict holds [S] under
    "state_dict" and a file that holds [S] directly load alike: the same
    network, the same lines printed, and so the same export. *)
Theorem state_dict_unwrapping_is_transparent
    (S wrapper : list (string * PyObj)) (model_key wrapped direct : string)
    (w : World E) :
  assoc "state_dict" S = None ->
  assoc "state_dict" wrapper = Some (PyDict S) ->
  wrapped <> "" -> direct <> "" ->
  torch_load E wrapped "cpu" = Ok (PyDict wrapper) ->
  torch_load E direct "cpu" = Ok (PyDict S) ->
  unwrap_state_dict (PyDict wrapper) = PyDict S /\
  unwrap_state_dict (PyDict S) = PyDict S /\
  load_midas_model E model_key (Some wrapped) w
  = load_midas_model E model_key (Some direct) w /\
  forall size out_path,
    export E model_key (Some wrapped) size out_path w
    = export E model_key (Some direct) size out_path w.
Proof.
  intros HS Hwrap Hw Hd Hlw Hld.
  assert (Hu1 : unwrap_state_dict (PyDict wrapper) = PyDict S).
  { unfold unwrap_state_dict. cbn. now rewrite Hwrap. }
  assert (Hu2 : unwrap_state_dict (PyDict S) = PyDict S).
  { unfold unwrap_state_dict. cbn. now rewrite HS. }
  assert (Heq : load_midas_model E model_key (Some wrapped) w
                = load_midas_model E model_key (Some direct) w).
  { destruct (assoc (lower model_key) MODEL_KEY_MAP) as [hub_key|] eqn:Hkey.
    - destruct (hub_load E "intel-isl/MiDaS" hub_key true false)
        as [net0|e|c] eqn:Hhub.
      + rewrite (load_with_weights _ _ _ _ _ w Hkey Hhub Hw Hlw).
        rewrite (load_with_weights _ _ _ _ _ w Hkey Hhub Hd Hld).
        now rewrite Hu1, Hu2.
      + unfold load_midas_model, bind.
        rewrite (resolve_known _ _ _ Hkey). unfold call at 1 3.
        now rewrite Hhub.
      + unfold load_midas_model, bind.
        rewrite (resolve_known _ _ _ Hkey). unfold call at 1 3.
        now rewrite Hhub.
    - unfold load_midas_model, bind. now rewrite (resolve_unknown _ _ Hkey). }
  repeat split; try assumption.
  intros size out_path. rewrite !export_unfold. unfold bind. now rewrite Heq.
Qed.


(** C9. [torch.load] is called outside the [try]: when reading the
    weights file raises, [load_midas_model] raises the same exception,
    prints no warning, and [export] ends with it, nothing traced or
    written, exit status 1. *)
Theorem weights_read_failure_aborts (model_key hub_key path : string)
    (net0 : Module) (e : Exn) (w : World E) :
  assoc (lower model_key) MODEL_KEY_MAP = Some hub_key ->
  hub_load E "intel-isl/MiDaS" hub_key true false = Ok net0 ->
  path <> "" ->
  torch_load E path "cpu" = Raise e ->
  load_midas_model E model_key (Some path) w = (Raise e, w) /\
  forall size out_path,
    export E model_key (Some path) size out_path w = (Raise e, w) /\
    exit_status (fst (export E model_key (Some path) size out_path w)) = 1%Z.
Proof.
  intros Hkey Hhub Hpath Hload.
  assert (H : load_midas_model E model_key (Some path) w = (Raise e, w)).
  { unfold load_midas_model, bind.
    rewrite (resolve_known _ _ _ Hkey).
    unfold call at 1. rewrite Hhub.
    rewrite (truthy_path _ Hpath).
    unfold call at 1. now rewrite Hload. }
  split; [exact H|].
  intros size out_path. rewrite (export_after_load _ _ _ _ _ _ _ H).
  split; reflexivity.
Qed.

(** C8. When importing the optimizer raises, or applying it to the
    traced graph raises, the optimization stage returns the traced graph
    itself and prints nothing; [export] then serializes that graph: it
    is what [_save_for_lite_interpreter] is called on, and when that
    call returns [export] ends normally with the artifact written. *)
Theorem optimizer_failure_falls_back (model_name : string)
    (weights_path : option string) (size : Z) (out_path : string)
    (base : Module) (example : Tensor) (ts : Script E) (e : Exn)
    (w w1 : World E) :
  load_midas_model E model_name weights_path w = (Ok base, w1) ->
  torch_randn E [1; 3; size; size]%Z = Ok example ->
  jit_trace E (DepthKornia_eval (DepthKornia_init base size size))
            example false false = Ok ts ->
  import_optimize_for_mobile E = Raise e \/
  (import_optimize_for_mobile E = Ok tt /\ optimize_for_mobile E ts = Raise e) ->
  optimize_for_constrained_runtime E ts w1 = (Ok ts, w1) /\
  export E model_name weights_path size out_path w
  = serialize E ts out_path w1 /\
  (save_for_lite_interpreter E ts out_path = Ok tt ->
   export E model_name weights_path size out_path w
   = (Ok tt, written w1 out_path ts)).
Proof.
  intros Hload Hrandn Htrace Hopt.
  assert (Hstage : optimize_for_constrained_runtime E ts w1 = (Ok ts, w1)).
  { unfold optimize_for_constrained_runtime, try_except, bind, call, ret.
    destruct Hopt as [Himp | [Himp Happ]].
    - now rewrite Himp.
    - now rewrite Himp, Happ. }
  assert (Hexp : export E model_name weights_path size out_path w
                 = serialize E ts out_path w1).
  { rewrite (export_after_load _ _ _ _ _ _ _ Hload).
    unfold export_stages, build_export_graph.
    unfold bind at 1. unfold bind at 1. unfold call at 1. rewrite Hrandn.
    unfold call at 1. rewrite Htrace.
    unfold bind at 1. now rewrite Hstage. }
  repeat split; try assumption.
  intros Hsave. rewrite Hexp.
  unfold serialize, bind, save, print, written. now rewrite Hsave.
Qed.

(** C10. The numpy guard is best effort.  When importing numpy or
    [Version] raises, or building or comparing the versions raises, the
    guard does nothing at all and the script goes on.  When the whole
    check runs, a numpy of at least 2.0.0 prints the error line and
    exits with status 1, and an older one passes silently.  So the
    guard prints its line and exits with 1 only after every step of the
    check has returned and the comparison has said yes. *)
Theorem numpy_guard_is_best_effort (w : World E) :
  (forall e,
     import_numpy E = Raise e \/
     (exists v, import_numpy E = Ok v /\
        (import_Version E = Raise e \/
         (import_Version E = Ok tt /\
            (Version E v = Raise e \/
             exists a, Version E v = Ok a /\
               (Version E "2.0.0" = Raise e \/
                exists b, Version E "2.0.0" = Ok b /\
                          Version_ge E a b = Raise e))))) ->
     numpy_guard E w = (Ok tt, w)) /\
  (forall v a b ge,
     import_numpy E = Ok v -> import_Version E = Ok tt ->
     Version E v = Ok a -> Version E "2.0.0" = Ok b ->
     Version_ge E a b = Ok ge ->
     numpy_guard E w
     = if ge then (Exit 1, warned w numpy_error) else (Ok tt, w)) /\
  (numpy_guard E w = (Exit 1, warned w numpy_error) ->
   exists v a b,
     import_numpy E = Ok v /\ import_Version E = Ok tt /\
     Version E v = Ok a /\ Version E "2.0.0" = Ok b /\
     Version_ge E a b = Ok true).
Proof.
  unfold numpy_guard, try_except, bind, call, ret, sys_exit.
  split; [|split].
  - intros e [H | (v & Hv & [H | (Hi & [H | (a & Ha & [H | (b & Hb & H)])])])].
    + now rewrite H.
    + now rewrite Hv, H.
    + now rewrite Hv, Hi, H.
    + now rewrite Hv, Hi, Ha, H.
    + now rewrite Hv, Hi, Ha, Hb, H.
  - intros v a b ge Hv Hi Ha Hb Hge.
    rewrite Hv, Hi, Ha, Hb, Hge. now destruct ge.
  - destruct (import_numpy E) as [v| |] eqn:Hv; cbn; try guard_kept.
    destruct (import_Version E) as [[]| |] eqn:Hi; cbn; try guard_kept.
    destruct (Version E v) as [a| |] eqn:Ha; cbn; try guard_kept.
    destruct (Version E "2.0.0") as [b| |] eqn:Hb; cbn; try guard_kept.
    destruct (Version_ge E a b) as [[|]| |] eqn:Hge; cbn; try guard_kept.
    intros _. exists v, a, b. repeat split; assumption.
Qed.

End PipelineProperties.

(** ** The theorems on the concrete environment *)

Lemma architecture_resolution_witness :
  resolve_architecture Demo.std_env "DPT_LeViT_224" (Demo.start _)
  = (Ok "DPT_LeViT_224", Demo.start _) /\
  export Demo.std_env "notamodel" None 256 "test.ptl" (Demo.start _)
  = (Exit 2,
     mkWorld []
       ["Unknown --model notamodel. Choices: ['midas_small', 'dpt_swin2_tiny_256', 'dpt_levit_224', 'midas_v21_small_256']"]
       []).
Proof.
  split.
  - apply (proj1 (architecture_resolution Demo.std_env "DPT_LeViT_224"
                    (Demo.start _)) "dpt_levit_224" "DPT_LeViT_224").
    + simpl. right. right. left. reflexivity.
    + reflexivity.
  - apply (proj2 (architecture_resolution Demo.std_env "notamodel"
                    (Demo.start _))).
    intros k a Hin. simpl in Hin.
    destruct Hin as [H|[H|[H|[H|[]]]]]; injection H as <- _; discriminate.
Defined.

(** C6, as stated, fails.  [Demo.odd_state] has an entry named
    "state_dict".  Nested under "state_dict" it is unwrapped once and
    loaded: the weight becomes 7 and nothing is printed.  Given
    directly it is unwrapped too, down to the tensor of that entry,
    which [load_state_dict] refuses: the weight stays 0 and a warning
    is printed. *)
Lemma state_dict_entry_breaks_transparency :
  torch_load Demo.std_env "odd_wrapped.pt" "cpu"
  = Ok (PyDict [("state_dict", PyDict Demo.odd_state)]) /\
  torch_load Demo.std_env "odd.pt" "cpu" = Ok (PyDict Demo.odd_state) /\
  (exists m, load_midas_model Demo.std_env "midas_small" (Some "odd_wrapped.pt")
               (Demo.start _) = (Ok m, Demo.start _) /\
             assoc "scratch.weight" (state m) = Some (Demo.param 7)) /\
  (exists m, load_midas_model Demo.std_env "midas_small" (Some "odd.pt")
               (Demo.start _)
             = (Ok m, mkWorld [] ["Warning: load_state_dict(strict=False) failed: Expected state_dict to be dict-like, got <class 'torch.Tensor'>."] []) /\
             assoc "scratch.weight" (state m) = Some (Demo.param 0)) /\
  load_midas_model Demo.std_env "midas_small" (Some "odd_wrapped.pt") (Demo.start _)
  <> load_midas_model Demo.std_env "midas_small" (Some "odd.pt") (Demo.start _).
Proof.
  split; [reflexivity|]. split; [reflexivity|].
  split; [eexists; split; reflexivity|].
  split; [eexists; split; reflexivity|].
  intros H. apply (f_equal (fun r => stderr (snd r))) in H.
  vm_compute in H. discriminate H.
Qed.

Lemma state_dict_unwrapping_is_transparent_witness :
  load_midas_model Demo.std_env "midas_small" (Some "plain_wrapped.pt") (Demo.start _)
  = load_midas_model Demo.std_env "midas_small" (Some "plain.pt") (Demo.start _).
Proof.
  apply (state_dict_unwrapping_is_transparent Demo.std_env Demo.plain_state
           [("state_dict", PyDict Demo.plain_state)]
           "midas_small" "plain_wrapped.pt" "plain.pt" (Demo.start _));
    try reflexivity; discriminate.
Defined.


Lemma weights_read_failure_aborts_witness :
  export Demo.std_env "midas_small" (Some "missing.pt") 2 "out.ptl" (Demo.start _)
  = (Raise (mkExn "FileNotFoundError"
              "[Errno 2] No such file or directory: 'missing.pt'"),
     Demo.start _).
Proof.
  apply (weights_read_failure_aborts Demo.std_env
           "midas_small" "MiDaS_small" "missing.pt" Demo.midas_small
           (mkExn "FileNotFoundError"
              "[Errno 2] No such file or directory: 'missing.pt'")
           (Demo.start _));
    try reflexivity; discriminate.
Defined.

Lemma optimizer_failure_falls_back_witness :
  export Demo.no_optimizer "midas_small" None 2 "out.ptl" (Demo.start _)
  = (Ok tt, @mkWorld Demo.no_optimizer ["Wrote out.ptl"] []
                     [("out.ptl", Demo.traced_2x2)]).
Proof.
  apply (optimizer_failure_falls_back Demo.no_optimizer
           "midas_small" None 2 "out.ptl"
           (module_eval Demo.midas_small) Demo.example_2x2 Demo.traced_2x2
           (Demo.ModuleNotFoundError "torch.utils.mobile_optimizer")
           (Demo.start _) (Demo.start _));
    try reflexivity.
  left. reflexivity.
Defined.

Lemma numpy_guard_is_best_effort_witness :
  numpy_guard Demo.no_numpy (Demo.start _) = (Ok tt, Demo.start _) /\
  numpy_guard Demo.numpy2 (Demo.start _)
  = (Exit 1, mkWorld [] [numpy_error] []) /\
  numpy_guard Demo.std_env (Demo.start _) = (Ok tt, Demo.start _).
Proof.
  split; [|split].
  - apply (proj1 (numpy_guard_is_best_effort Demo.no_numpy (Demo.start _))
             (Demo.ModuleNotFoundError "numpy")).
    left. reflexivity.
  - exact (proj1 (proj2 (numpy_guard_is_best_effort Demo.numpy2 (Demo.start _)))
             "2.1.3" [2; 1; 3]%Z [2; 0; 0]%Z true
             eq_refl eq_refl eq_refl eq_refl eq_refl).
  - exact (proj1 (proj2 (numpy_guard_is_best_effort Demo.std_env (Demo.start _)))
             "1.26.4" [1; 26; 4]%Z [2; 0; 0]%Z false
             eq_refl eq_refl eq_refl eq_refl eq_refl).
Defined.

(** ** Runs of the script *)

(** With numpy 1.26.4 the script goes through and leaves one artifact,
    the optimized graph; its exit status is 0. *)
Example main_exports :
  main Demo.std_env (Demo.start _)
  = (Ok tt, @mkWorld Demo.std_env ["Wrote depth_kornia.torchscript.ptl"] []
              [("depth_kornia.torchscript.ptl", Demo.Optimized Demo.traced_2x2)]).
Proof. reflexivity. Qed.

(** With numpy 2.1.3 it stops at the guard with exit status 1. *)
Example main_rejects_numpy2 :
  main Demo.numpy2 (Demo.start _) = (Exit 1, mkWorld [] [numpy_error] []) /\
  exit_status (fst (main Demo.numpy2 (Demo.start _))) = 1%Z.
Proof. split; reflexivity. Qed.

(** Without numpy the guard is passed over. *)
Example main_without_numpy :
  fst (main Demo.no_numpy (Demo.start _)) = Ok tt.
Proof. reflexivity. Qed.

(** An 8-bit image through the wrapper: 255 becomes
    [(1.0 - 0.485) / 0.229]. *)
Example forward_bytes_image :
  forward Demo.std_env Demo.wrapper_1x1 Demo.bytes_image
  = Ok (mkTensor float32 [1; 1; 1; 1]%nat [ S754_finite false 9432605 (-22) ]).
Proof. reflexivity. Qed.

(** No maximum on a tensor without elements: [forward] raises. *)
Example forward_empty_batch :
  forward Demo.std_env Demo.wrapper_1x1 (mkTensor float32 [0; 3; 1; 1]%nat [])
  = Raise max_of_empty.
Proof. reflexivity. Qed.

(* ------------------------------------------------------------------ *)
(** * Further properties of the wrapper *)

Lemma to_float32_dtype (x : Tensor) : t_dtype (to_float32 x) = float32.
Proof. unfold to_float32. destruct (t_dtype x) eqn:H; try reflexivity. exact H. Qed.

Lemma to_float32_shape (x : Tensor) : shape (to_float32 x) = shape x.
Proof. unfold to_float32. destruct (t_dtype x); reflexivity. Qed.

Lemma to_float32_length (x : Tensor) :
  List.length (data (to_float32 x)) = List.length (data x).
Proof.
  unfold to_float32. destruct (t_dtype x); cbn; rewrite ?length_map; reflexivity.
Qed.

Lemma to_float32_empty (x : Tensor) :
  data (to_float32 x) = [] <-> data x = [].
Proof.
  split; intros H.
  - apply length_zero_iff_nil. rewrite <- to_float32_length. now rewrite H.
  - apply length_zero_iff_nil. rewrite to_float32_length. now rewrite H.
Qed.

(** The first stage returns on every tensor that has an element. *)
Lemma normalize_returns (x : Tensor) :
  data x <> [] ->
  normalize_dtype_and_range x = Ok (to_float32 x) \/
  normalize_dtype_and_range x = Ok (div_scalar (to_float32 x) F32.c255).
Proof.
  intros Hne. unfold normalize_dtype_and_range, tensor_max.
  destruct (data (to_float32 x)) as [|a l] eqn:Hd.
  - apply (proj1 (to_float32_empty x)) in Hd. contradiction.
  - destruct (isfinite_all (to_float32 x)); [|now left].
    destruct (SFltb F32.one (fold_left sf_max l a)); [now right | now left].
Qed.

(** X1. Whenever the dtype and range normalization returns, its result
    is a float32 tensor with the shape and the number of elements of
    the input. *)
Theorem normalization_keeps_shape (x r : Tensor) :
  normalize_dtype_and_range x = Ok r ->
  t_dtype r = float32 /\ shape r = shape x /\
  List.length (data r) = List.length (data x).
Proof.
  intros H.
  assert (Hne : data x <> []).
  { intros He. unfold normalize_dtype_and_range, tensor_max in H.
    apply (proj2 (to_float32_empty x)) in He. rewrite He in H.
    unfold isfinite_all in H. rewrite He in H. cbn in H. discriminate. }
  destruct (normalize_returns x Hne) as [Hr | Hr]; rewrite Hr in H;
    injection H as <-; cbn [div_scalar t_dtype shape data];
    rewrite ?length_map, to_float32_dtype, to_float32_shape, to_float32_length;
    repeat split.
Qed.

Lemma normalization_keeps_shape_witness :
  exists r, normalize_dtype_and_range Demo.bytes_image = Ok r /\
    t_dtype r = float32 /\ shape r = [1; 3; 1; 1]%nat /\
    List.length (data r) = 3%nat.
Proof.
  eexists. split; [reflexivity|].
  exact (normalization_keeps_shape Demo.bytes_image _ eq_refl).
Defined.

(** X2. A tensor without elements has no maximum: the first stage, and
    with it [forward], raises the error of [x.max()] before Kornia or
    the network is reached, whatever they would do.  On every tensor
    that has an element the first stage returns. *)
Theorem normalization_raises_only_on_empty (x : Tensor) :
  (data x = [] ->
   normalize_dtype_and_range x = Raise max_of_empty /\
   forall E self, forward E self x = Raise max_of_empty) /\
  (data x <> [] -> exists r, normalize_dtype_and_range x = Ok r).
Proof.
  split.
  - intros He.
    assert (H : normalize_dtype_and_range x = Raise max_of_empty).
    { apply (proj2 (to_float32_empty x)) in He.
      unfold normalize_dtype_and_range, tensor_max, isfinite_all.
      now rewrite He. }
    split; [exact H|].
    intros E self. rewrite forward_normalizes_first. now rewrite H.
  - intros Hne. destruct (normalize_returns x Hne) as [H | H];
      eexists; exact H.
Qed.

Lemma normalization_raises_only_on_empty_witness :
  forward Demo.std_env Demo.wrapper_1x1 (mkTensor uint8 [1; 3; 0; 0]%nat [])
  = Raise max_of_empty /\
  exists r, normalize_dtype_and_range Demo.nan_image = Ok r.
Proof.
  split.
  - apply (proj1 (normalization_raises_only_on_empty
                    (mkTensor uint8 [1; 3; 0; 0]%nat [])) eq_refl).
  - apply (proj2 (normalization_raises_only_on_empty Demo.nan_image)).
    discriminate.
Defined.

Lemma normalize_output_rank_rank3 (y : Tensor) :
  dim y = 3%nat -> normalize_output_rank y = unsqueeze 1 y.
Proof.
  unfold normalize_output_rank, dim.
  destruct (shape y) as [|a [|b [|c [|d s]]]]; intros H; try discriminate H.
  reflexivity.
Qed.

Lemma normalize_output_rank_other (y : Tensor) :
  dim y <> 3%nat -> normalize_output_rank y = y.
Proof.
  unfold normalize_output_rank, dim.
  destruct (shape y) as [|a [|b [|c [|d s]]]]; intros H; try reflexivity.
  now contradiction H.
Qed.

Section RankProperties.

Variable E : Externals.

(** X3. [forward] touches the output of the network only when it has
    rank 3, and then only its shape: a dimension of size 1 goes in at
    position 1.  An output of any other rank, 2 or 5 say, is returned
    as it is, and the elements are never changed. *)
Theorem forward_changes_only_rank3_outputs
    (self : DepthKornia) (x p y0 : Tensor) :
  preprocess E self x = Ok p ->
  infer E self p = Ok y0 ->
  exists y, forward E self x = Ok y /\
    data y = data y0 /\ t_dtype y = t_dtype y0 /\
    (dim y0 = 3%nat ->
       dim y = 4%nat /\ nth_error (shape y) 1 = Some 1%nat /\
       nth_error (shape y) 0 = nth_error (shape y0) 0 /\
       skipn 2 (shape y) = skipn 1 (shape y0)) /\
    (dim y0 <> 3%nat -> y = y0).
Proof.
  intros Hpre Hnet.
  exists (normalize_output_rank y0). split.
  - rewrite forward_chain. unfold forward_spec.
    unfold preprocess in Hpre.
    destruct (normalize_dtype_and_range x) as [a| |]; cbn [obind] in *;
      try discriminate.
    destruct (resize E a (in_h self) (in_w self)) as [b| |]; cbn [obind] in *;
      try discriminate.
    rewrite Hpre. cbn [obind]. now rewrite Hnet.
  - destruct (Nat.eq_dec (dim y0) 3) as [H3 | Hn].
    + rewrite (normalize_output_rank_rank3 _ H3).
      unfold dim in H3.
      destruct (shape y0) as [|a [|b [|c [|d s]]]] eqn:Hs; try discriminate H3.
      unfold unsqueeze, dim. cbn [shape data t_dtype]. rewrite Hs.
      split; [reflexivity|]. split; [reflexivity|]. split.
      * intros _. cbn. repeat split.
      * intros Hn. now contradiction Hn.
    + rewrite (normalize_output_rank_other _ Hn).
      split; [reflexivity|]. split; [reflexivity|]. split.
      * intros H3. contradiction.
      * reflexivity.
Qed.

End RankProperties.

(** ** 8-bit images *)

Lemma all_byte_facts :
  forallb byte_facts (seq 0 256) = true.
Proof. vm_compute. reflexivity. Qed.

Lemma all_byte_pair_facts :
  forallb (fun i => forallb (byte_pair_facts i) (seq 0 256)) (seq 0 256) = true.
Proof. vm_compute. reflexivity. Qed.

Lemma byte_fact (n : nat) : (n <= 255)%nat -> byte_facts n = true.
Proof.
  intros H. assert (Hall := all_byte_facts).
  rewrite forallb_forall in Hall. apply Hall. apply in_seq. lia.
Qed.

Lemma byte_pair_fact (i j : nat) :
  (i <= 255)%nat -> (j <= 255)%nat -> byte_pair_facts i j = true.
Proof.
  intros Hi Hj. assert (Hall := all_byte_pair_facts).
  rewrite forallb_forall in Hall.
  assert (Hin : In i (seq 0 256)) by (apply in_seq; lia).
  assert (H := Hall i Hin).
  rewrite forallb_forall in H. apply H. apply in_seq. lia.
Qed.

Lemma sf_max_cases (a b : spec_float) : sf_max a b = a \/ sf_max a b = b.
Proof.
  unfold sf_max.
  destruct a, b; try (now left); try (now right);
    destruct (SFltb _ _); auto.
Qed.

Lemma fold_max_in (l : list spec_float) (a : spec_float) :
  In (fold_left sf_max l a) (a :: l).
Proof.
  revert a. induction l as [|v l IH]; intros a; cbn [fold_left].
  - now left.
  - destruct (IH (sf_max a v)) as [H | H].
    + destruct (sf_max_cases a v) as [Hc | Hc].
      * left. now transitivity (sf_max a v).
      * right. left. now transitivity (sf_max a v).
    + right. right. exact H.
Qed.

(** The maximum of converted bytes is above 1.0 as soon as one of them
    is. *)
Lemma fold_max_bytes (l : list spec_float) :
  forall a,
    (exists n, (n <= 255)%nat /\ a = byte_f32 n) ->
    (forall v, In v l -> exists n, (n <= 255)%nat /\ v = byte_f32 n) ->
    SFltb F32.one (fold_left sf_max l a) = false ->
    SFltb F32.one a = false /\ forall v, In v l -> SFltb F32.one v = false.
Proof.
  induction l as [|v l IH]; intros a Ha Hl Hm; cbn [fold_left] in Hm.
  - split; [exact Hm | intros v []].
  - destruct Ha as (i & Hi & ->).
    destruct (Hl v (or_introl eq_refl)) as (j & Hj & ->).
    assert (Hmax : exists n, (n <= 255)%nat
                             /\ sf_max (byte_f32 i) (byte_f32 j) = byte_f32 n).
    { destruct (sf_max_cases (byte_f32 i) (byte_f32 j)) as [H | H]; rewrite H;
        [exists i | exists j]; split; auto. }
    destruct (IH _ Hmax (fun v Hv => Hl v (or_intror Hv)) Hm) as [Hacc Hrest].
    assert (Hp := byte_pair_fact i j Hi Hj). unfold byte_pair_facts in Hp.
    rewrite Hacc in Hp. cbn in Hp.
    apply andb_prop in Hp. destruct Hp as [H1 H2].
    apply negb_true_iff in H1. apply negb_true_iff in H2.
    split; [exact H1|].
    intros v [<- | Hv]; [exact H2 | now apply Hrest].
Qed.

Lemma byte_image_float (x : Tensor) :
  byte_image x ->
  to_float32 x = float x /\
  forall v, In v (data (float x)) -> exists n, (n <= 255)%nat /\ v = byte_f32 n.
Proof.
  intros [Hd Hb]. split.
  - unfold to_float32. now rewrite Hd.
  - intros v Hv. cbn [float data] in Hv. apply in_map_iff in Hv.
    destruct Hv as (u & <- & Hu). destruct (Hb u Hu) as (n & Hn & ->).
    exists n. split; [exact Hn | reflexivity].
Qed.

Lemma byte_image_finite (x : Tensor) :
  byte_image x -> isfinite_all (float x) = true.
Proof.
  intros Hx. destruct (byte_image_float x Hx) as [_ Hb].
  unfold isfinite_all. apply forallb_forall. intros v Hv.
  destruct (Hb v Hv) as (n & Hn & ->).
  assert (H := byte_fact n Hn). unfold byte_facts in H.
  now apply andb_prop in H.
Qed.

(** What the first stage does on an 8-bit image, by its maximum. *)
Lemma byte_image_cases (x : Tensor) :
  byte_image x -> data x <> [] ->
  exists m, tensor_max (float x) = Some m /\ In m (data (float x)) /\
    normalize_dtype_and_range x
    = Ok (if SFltb F32.one m then div_scalar (float x) F32.c255 else float x).
Proof.
  intros Hx Hne. destruct (byte_image_float x Hx) as [Hf _].
  unfold normalize_dtype_and_range. rewrite Hf, (byte_image_finite x Hx).
  unfold tensor_max.
  destruct (data (float x)) as [|a l] eqn:Hd.
  - exfalso. apply Hne. cbn [float data] in Hd.
    now apply map_eq_nil in Hd.
  - exists (fold_left sf_max l a). split; [reflexivity|]. split.
    + apply fold_max_in.
    + now destruct (SFltb F32.one (fold_left sf_max l a)).
Qed.

(** X4. An 8-bit image is divided by 255.0 exactly when one of its
    bytes is 2 or more.  An image all of whose bytes are 0 or 1 is
    taken for one in [0, 1] already and is only converted: its byte 1
    comes out as 1.0, not as 1/255. *)
Theorem byte_image_rescaled_iff_some_byte_above_one (x : Tensor) :
  byte_image x -> data x <> [] ->
  ((exists n, (2 <= n <= 255)%nat /\ In (byte n) (data x)) ->
   normalize_dtype_and_range x = Ok (div_scalar (float x) F32.c255)) /\
  ((forall v, In v (data x) -> v = byte 0 \/ v = byte 1) ->
   normalize_dtype_and_range x = Ok (float x)).
Proof.
  intros Hx Hne.
  destruct (byte_image_cases x Hx Hne) as (m & Hmax & Hin & Hr).
  destruct (byte_image_float x Hx) as [_ Hb].
  split.
  - intros (n & Hn & Hvn). rewrite Hr.
    destruct (SFltb F32.one m) eqn:Hm; [reflexivity|exfalso].
    unfold tensor_max in Hmax.
    destruct (data (float x)) as [|a l] eqn:Hd; [discriminate|].
    injection Hmax as <-.
    destruct (fold_max_bytes l a (Hb a (or_introl eq_refl))
                (fun v Hv => Hb v (or_intror Hv)) Hm) as [Ha Hl].
    assert (Hbig : SFltb F32.one (byte_f32 n) = true).
    { assert (H := byte_fact n ltac:(lia)). unfold byte_facts in H.
      apply andb_prop in H. destruct H as [_ H].
      apply andb_prop in H. destruct H as [_ H].
      apply andb_prop in H. destruct H as [_ H].
      destruct (Nat.leb 2 n) eqn:Hle; [exact H|].
      apply Nat.leb_gt in Hle. lia. }
    assert (Hmem : In (byte_f32 n) (a :: l)).
    { rewrite <- Hd. cbn [float data]. unfold byte_f32.
      apply in_map. exact Hvn. }
    destruct Hmem as [Hmem | Hmem].
    + rewrite Hmem, Hbig in Ha. discriminate.
    + rewrite (Hl _ Hmem) in Hbig. discriminate.
  - intros Hdark. rewrite Hr.
    assert (Hm : SFltb F32.one m = false).
    { cbn [float data] in Hin. apply in_map_iff in Hin.
      destruct Hin as (u & <- & Hu).
      destruct (Hdark u Hu) as [-> | ->]; reflexivity. }
    now rewrite Hm.
Qed.

(** X5. The first stage brings every 8-bit image into [0, 1]: whether
    it divides or not, each element of its result is at least 0.0 and
    at most 1.0. *)
Theorem byte_image_normalized_into_unit_range (x : Tensor) :
  byte_image x -> data x <> [] ->
  exists r, normalize_dtype_and_range x = Ok r /\
    forall v, In v (data r) -> in_unit_range v = true.
Proof.
  intros Hx Hne.
  destruct (byte_image_cases x Hx Hne) as (m & Hmax & Hin & Hr).
  destruct (byte_image_float x Hx) as [_ Hb].
  eexists. split; [exact Hr|].
  destruct (SFltb F32.one m) eqn:Hm.
  - intros v Hv. cbn [div_scalar data] in Hv. apply in_map_iff in Hv.
    destruct Hv as (u & <- & Hu). destruct (Hb u Hu) as (n & Hn & ->).
    assert (H := byte_fact n Hn). unfold byte_facts in H.
    apply andb_prop in H. destruct H as [_ H].
    now apply andb_prop in H.
  - unfold tensor_max in Hmax.
    destruct (data (float x)) as [|a l] eqn:Hd; [discriminate|].
    injection Hmax as <-.
    destruct (fold_max_bytes l a (Hb a (or_introl eq_refl))
                (fun v Hv => Hb v (or_intror Hv)) Hm) as [Ha Hl].
    intros v Hv.
    assert (Hlow : SFltb F32.one v = false).
    { destruct Hv as [<- | Hv]; [exact Ha | now apply Hl]. }
    destruct (Hb v Hv) as (n & Hn & ->).
    assert (H := byte_fact n Hn). unfold byte_facts in H.
    apply andb_prop in H. destruct H as [_ H].
    apply andb_prop in H. destruct H as [_ H].
    apply andb_prop in H. destruct H as [Hsmall Hbig].
    destruct (Nat.leb n 1) eqn:Hle.
    + cbn in Hsmall. now apply andb_prop in Hsmall.
    + destruct (Nat.leb 2 n) eqn:Hge.
      * cbn in Hbig. rewrite Hbig in Hlow. discriminate.
      * apply Nat.leb_gt in Hle. apply Nat.leb_gt in Hge. lia.
Qed.

(** ** Standardization *)

Lemma nth_map_seq {A} (g : nat -> A) (n i : nat) (d : A) :
  (i < n)%nat -> nth i (map g (seq 0 n)) d = g i.
Proof.
  intros H.
  rewrite (nth_indep _ d (g 0%nat)) by now rewrite length_map, length_seq.
  rewrite map_nth. now rewrite seq_nth.
Qed.

(** A dimension of size 1 is read at 0 either way. *)
Lemma offset_term (d k s : nat) :
  (if Nat.eqb d 1 then 0 else k mod d * s)%nat = (k mod d * s)%nat.
Proof.
  destruct (Nat.eqb_spec d 1) as [-> |]; [|reflexivity].
  now rewrite Nat.mod_1_r.
Qed.

Lemma image_index_split (h w i : nat) :
  (i < 3 * h * w)%nat ->
  (i mod w + (i / w) mod h * w + (i / w / h) * (w * h) = i)%nat /\
  (i / w / h < 3)%nat.
Proof.
  intros Hi.
  assert (Hq1 : (i / w < 3 * h)%nat)
    by (apply Nat.Div0.div_lt_upper_bound; nia).
  assert (Hq2 : (i / w / h < 3)%nat)
    by (apply Nat.Div0.div_lt_upper_bound; nia).
  split; [|exact Hq2].
  assert (H1 := Nat.div_mod_eq i w).
  assert (H2 := Nat.div_mod_eq (i / w) h).
  nia.
Qed.

(** In a result of shape [(1, 3, h, w)] an operand of that shape is
    read at the index itself. *)
Lemma offset_same_shape (h w i : nat) :
  (i < 3 * h * w)%nat ->
  offset_rev [w; h; 3; 1]%nat [w; h; 3; 1]%nat i 1 = i.
Proof.
  intros Hi. destruct (image_index_split h w i Hi) as [Hsplit Hq].
  cbn [offset_rev]. rewrite !offset_term.
  rewrite (Nat.mod_small (i / w / h) 3 Hq).
  rewrite Nat.mod_1_r. nia.
Qed.

(** An operand of shape [(1, 3, 1, 1)] is read at the channel. *)
Lemma offset_channel (h w i : nat) :
  (i < 3 * h * w)%nat ->
  offset_rev [w; h; 3; 1]%nat [1; 1; 3; 1]%nat i 1 = (i / (h * w))%nat.
Proof.
  intros Hi. destruct (image_index_split h w i Hi) as [_ Hq].
  cbn [offset_rev Nat.eqb].
  rewrite (Nat.mod_small (i / w / h) 3 Hq).
  rewrite Nat.Div0.div_div, (Nat.mul_comm h w). lia.
Qed.

Lemma broadcast_shapes_image (h w : nat) :
  broadcast_shapes [1; 3; h; w]%nat [1; 3; 1; 1]%nat = Some [1; 3; h; w]%nat.
Proof.
  unfold broadcast_shapes. cbn [rev app broadcast_rev].
  cbn [Nat.eqb].
  destruct (Nat.eqb h 1), (Nat.eqb w 1); reflexivity.
Qed.

Lemma numel_image (h w : nat) : numel [1; 3; h; w]%nat = (3 * h * w)%nat.
Proof. unfold numel. cbn [fold_right]. lia. Qed.

(** One operation of line 71 on an image and a vector of constants. *)
Lemma broadcast_op_image (f : spec_float -> spec_float -> spec_float)
    (x c : Tensor) (h w : nat) :
  shape x = [1; 3; h; w]%nat -> shape c = [1; 3; 1; 1]%nat ->
  broadcast_op f x c
  = Ok (mkTensor float32 [1; 3; h; w]%nat
          (map (fun i => f (nth i (data x) S754_nan)
                           (nth (i / (h * w)) (data c) S754_nan))
               (seq 0 (3 * h * w)))).
Proof.
  intros Hx Hc. unfold broadcast_op.
  rewrite Hx, Hc, broadcast_shapes_image, numel_image.
  f_equal. f_equal. apply map_ext_in. intros i Hi.
  apply in_seq in Hi. unfold broadcast_get. rewrite Hx, Hc.
  cbn [rev app].
  rewrite offset_same_shape, offset_channel by lia. reflexivity.
Qed.

(** X6. On an image of shape [(1, 3, h, w)], with constants of shape
    [(1, 3, 1, 1)], line 71 returns a float32 tensor of the same shape
    whose element at flat index [i], which lies in channel
    [i / (h * w)], is [(x[i] - mean[c]) / std[c]] for that channel [c],
    both operations in float32. *)
Theorem standardize_is_per_channel (self : DepthKornia) (x : Tensor)
    (h w : nat) :
  shape x = [1; 3; h; w]%nat ->
  shape (mean self) = [1; 3; 1; 1]%nat ->
  shape (std self) = [1; 3; 1; 1]%nat ->
  exists r, standardize self x = Ok r /\
    t_dtype r = float32 /\ shape r = [1; 3; h; w]%nat /\
    List.length (data r) = (3 * h * w)%nat /\
    forall i, (i < 3 * h * w)%nat ->
      nth i (data r) S754_nan
      = F32.div (F32.sub (nth i (data x) S754_nan)
                         (nth (i / (h * w)) (data (mean self)) S754_nan))
                (nth (i / (h * w)) (data (std self)) S754_nan).
Proof.
  intros Hx Hm Hs. unfold standardize, tensor_sub, tensor_div.
  rewrite (broadcast_op_image F32.sub x (mean self) h w Hx Hm).
  cbn [obind].
  rewrite (broadcast_op_image F32.div _ (std self) h w)
    by (reflexivity || exact Hs).
  eexists. split; [reflexivity|]. cbn [t_dtype shape data].
  split; [reflexivity|]. split; [reflexivity|]. split.
  - now rewrite length_map, length_seq.
  - intros i Hi. rewrite nth_map_seq by exact Hi.
    now rewrite nth_map_seq by exact Hi.
Qed.

Lemma broadcast_shapes_gray (h w : nat) :
  broadcast_shapes [1; 1; h; w]%nat [1; 3; 1; 1]%nat = Some [1; 3; h; w]%nat.
Proof.
  unfold broadcast_shapes. cbn [rev app broadcast_rev].
  cbn [Nat.eqb].
  destruct (Nat.eqb h 1), (Nat.eqb w 1); reflexivity.
Qed.

(** An operand of shape [(1, 1, h, w)] is read at the pixel. *)
Lemma offset_gray (h w i : nat) :
  offset_rev [w; h; 3; 1]%nat [w; h; 1; 1]%nat i 1 = (i mod (h * w))%nat.
Proof.
  cbn [offset_rev Nat.eqb]. rewrite !offset_term.
  rewrite (Nat.mul_comm h w), Nat.Div0.mod_mul_r. lia.
Qed.

(** X7. A one-channel image of shape [(1, 1, h, w)] is not refused by
    line 71: it is broadcast against the three constants and comes out
    with shape [(1, 3, h, w)], channel [c] holding every pixel
    standardized with the constants of [c]. *)
Theorem standardize_broadcasts_one_channel (self : DepthKornia) (x : Tensor)
    (h w : nat) :
  shape x = [1; 1; h; w]%nat ->
  shape (mean self) = [1; 3; 1; 1]%nat ->
  shape (std self) = [1; 3; 1; 1]%nat ->
  exists r, standardize self x = Ok r /\
    shape r = [1; 3; h; w]%nat /\
    List.length (data r) = (3 * h * w)%nat /\
    forall i, (i < 3 * h * w)%nat ->
      nth i (data r) S754_nan
      = F32.div (F32.sub (nth (i mod (h * w)) (data x) S754_nan)
                         (nth (i / (h * w)) (data (mean self)) S754_nan))
                (nth (i / (h * w)) (data (std self)) S754_nan).
Proof.
  intros Hx Hm Hs. unfold standardize, tensor_sub, tensor_div.
  unfold broadcast_op at 1.
  rewrite Hx, Hm, broadcast_shapes_gray, numel_image. cbn [obind].
  rewrite (broadcast_op_image F32.div _ (std self) h w)
    by (reflexivity || exact Hs).
  eexists. split; [reflexivity|]. cbn [t_dtype shape data].
  split; [reflexivity|]. split.
  - now rewrite length_map, length_seq.
  - intros i Hi. rewrite nth_map_seq by exact Hi.
    rewrite nth_map_seq by exact Hi.
    unfold broadcast_get. rewrite Hx, Hm. cbn [rev app].
    now rewrite offset_gray, offset_channel by exact Hi.
Qed.

Lemma broadcast_shapes_channel_mismatch (n c h w : nat) :
  c <> 1%nat -> c <> 3%nat ->
  broadcast_shapes [n; c; h; w]%nat [1; 3; 1; 1]%nat = None.
Proof.
  intros H1 H3. unfold broadcast_shapes. cbn [rev app broadcast_rev].
  cbn [Nat.eqb].
  destruct (Nat.eqb_spec c 3) as [|_]; [contradiction|].
  destruct (Nat.eqb_spec c 1) as [|_]; [contradiction|].
  destruct (Nat.eqb n 1); reflexivity.
Qed.

Lemma size_mismatch_class (a b : list nat) :
  exn_class (size_mismatch a b) = "RuntimeError".
Proof.
  unfold size_mismatch.
  destruct (first_mismatch (rev a) (rev b) 0) as [[[x y] j]|]; reflexivity.
Qed.

Section ChannelProperties.

Variable E : Externals.

(** X8. When the resized image has a channel count other than 1 or 3,
    the subtraction of line 71 raises: [forward] ends with that error
    and the network plays no part in the outcome. *)
Theorem wrong_channel_count_raises (self : DepthKornia) (x a b : Tensor)
    (n c h w : nat) :
  normalize_dtype_and_range x = Ok a ->
  resize E a (in_h self) (in_w self) = Ok b ->
  shape b = [n; c; h; w]%nat -> c <> 1%nat -> c <> 3%nat ->
  shape (mean self) = [1; 3; 1; 1]%nat ->
  exists e, exn_class e = "RuntimeError" /\
    standardize self b = Raise e /\ forward E self x = Raise e.
Proof.
  intros Ha Hb Hshape H1 H3 Hm.
  assert (Hs : standardize self b
               = Raise (size_mismatch (shape b) (shape (mean self)))).
  { unfold standardize, tensor_sub, broadcast_op.
    rewrite Hshape, Hm at 1.
    now rewrite (broadcast_shapes_channel_mismatch n c h w H1 H3). }
  eexists. split; [|split; [exact Hs|]]; [apply size_mismatch_class|].
  rewrite forward_chain. unfold forward_spec.
  rewrite Ha. cbn [obind]. rewrite Hb. cbn [obind]. now rewrite Hs.
Qed.

End ChannelProperties.

(* ------------------------------------------------------------------ *)
(** * [forward] against the stages of the specification *)

(** ** The maximum and 1.0 *)





(** ** The first and the last stage *)






(** ** Line 71 on a batch of three-channel images *)







Section Composition.

Variable E : Externals.


End Composition.


(* ------------------------------------------------------------------ *)
(** * Further properties of the pipeline *)

(** Take an innermost match of the goal apart. *)
Ltac next_case :=
  cbv beta iota;
  match goal with
  | |- context [match ?t with _ => _ end] =>
      lazymatch t with
      | context [match _ with _ => _ end] => fail
      | _ => destruct t
      end
  end.

(** The end of a run: the outcome and the world it left. *)
Ltac run_ends :=
  cbv beta iota;
  let H := fresh "H" in
  intros H; injection H as <- <-; cbn [written warned stdout stderr files].

Section PipelineInvariants.

Variable E : Externals.

(** What [load_midas_model] leaves behind, whatever its outcome. *)
Lemma load_effects (model_key : string) (weights : option string)
    (w w' : World E) (r : outcome Module) :
  load_midas_model E model_key weights w = (r, w') ->
  stdout w' = stdout w /\ files w' = files w /\
  (stderr w' = stderr w \/
   stderr w' = stderr w ++ [unknown_model model_key] \/
   exists e, stderr w' = stderr w ++ [load_warning e]) /\
  forall m, r = Ok m -> training m = false.
Proof.
  unfold load_midas_model, resolve_architecture, bind, call, ret, eprint,
    sys_exit.
  repeat next_case; run_ends;
    (split; [reflexivity|]; split; [reflexivity|]; split;
     [ first [ left; reflexivity
             | right; left; reflexivity
             | right; right; eexists; reflexivity ]
     | let m := fresh "m" in
       let Hm := fresh "Hm" in
       intros m Hm; first [ discriminate Hm
                          | injection Hm as <-; reflexivity ] ]).
Qed.


(** X10. Without a weights path, and an empty path counts as none, the
    network is the one the model zoo gives for the mapped architecture,
    put in eval mode; a failure of the zoo is the failure of the load.
    No weights file is read and nothing is printed. *)
Theorem load_without_weights (model_key hub_key : string)
    (weights : option string) (w : World E) :
  assoc (lower model_key) MODEL_KEY_MAP = Some hub_key ->
  weights = None \/ weights = Some "" ->
  load_midas_model E model_key weights w
  = (obind (hub_load E "intel-isl/MiDaS" hub_key true false)
           (fun net => Ok (module_eval net)), w).
Proof.
  intros Hkey Hw. unfold load_midas_model, bind.
  rewrite (resolve_known _ _ _ _ Hkey). unfold call, ret.
  destruct (hub_load E "intel-isl/MiDaS" hub_key true false) as [net| |];
    cbn [obind]; try reflexivity.
  destruct Hw as [-> | ->]; reflexivity.
Qed.

(** X11. A known key loads the same network however it is spelled:
    two keys that differ only in case give the same outcome and leave
    the same world. *)
Theorem load_ignores_case_of_known_key (k1 k2 : string)
    (weights : option string) (w : World E) :
  lower k1 = lower k2 ->
  assoc (lower k1) MODEL_KEY_MAP <> None ->
  load_midas_model E k1 weights w = load_midas_model E k2 weights w.
Proof.
  intros Hl Hk.
  destruct (assoc (lower k1) MODEL_KEY_MAP) as [hub_key|] eqn:H1;
    [|contradiction].
  assert (H2 : assoc (lower k2) MODEL_KEY_MAP = Some hub_key)
    by now rewrite <- Hl.
  unfold load_midas_model, bind.
  now rewrite (resolve_known _ _ _ _ H1), (resolve_known _ _ _ _ H2).
Qed.


(** The stages after the acquisition of the network either end normally
    with one artifact and one line written, or fail and leave the world
    as it was. *)
Lemma stages_effects (base : Module) (size : Z) (out_path : string)
    (w w' : World E) (r : outcome unit) :
  export_stages E base size out_path w = (r, w') ->
  (r = Ok tt /\ exists ts, w' = written w out_path ts) \/
  (r <> Ok tt /\ w' = w).
Proof.
  unfold export_stages, build_export_graph, optimize_for_constrained_runtime,
    serialize, save, print, try_except, bind, call, ret, written.
  repeat next_case; run_ends;
    first [ left; split; [reflexivity | eexists; reflexivity]
          | right; split; [discriminate | reflexivity] ].
Qed.

(** X13. [export] leaves an artifact exactly when it ends normally.
    Then the artifact is at [out_path], the last one written, and the
    line "Wrote ..." is the last on the output stream.  When [export]
    fails, at whatever stage, no artifact is written and nothing is
    printed on the output stream. *)
Theorem export_writes_iff_it_returns (model_name : string)
    (weights_path : option string) (size : Z) (out_path : string)
    (w w' : World E) (r : outcome unit) :
  export E model_name weights_path size out_path w = (r, w') ->
  (r = Ok tt /\
   (exists ts, files w' = files w ++ [(out_path, ts)]) /\
   stdout w' = stdout w ++ [("Wrote " ++ out_path)%string]) \/
  (r <> Ok tt /\ files w' = files w /\ stdout w' = stdout w).
Proof.
  intros H.
  destruct (load_midas_model E model_name weights_path w) as [rl w1] eqn:Hl.
  rewrite (export_after_load _ _ _ _ _ _ _ _ Hl) in H.
  destruct (load_effects _ _ _ _ _ Hl) as (Hout & Hfiles & _ & _).
  destruct rl as [base|e|c].
  - destruct (stages_effects _ _ _ _ _ _ H) as [[-> [ts ->]] | [Hr ->]].
    + left. split; [reflexivity|]. cbn [written files stdout].
      rewrite Hout, Hfiles. split; [exists ts|]; reflexivity.
    + right. split; [exact Hr|]. now split.
  - injection H as <- <-. right. split; [discriminate|]. now split.
  - injection H as <- <-. right. split; [discriminate|]. now split.
Qed.


(** X15. When the optimizer is there and returns a graph, that graph,
    not the traced one, is what is serialized; when the save call
    returns, [export] ends normally with it written at [out_path]. *)
Theorem optimized_graph_is_serialized (model_name : string)
    (weights_path : option string) (size : Z) (out_path : string)
    (base : Module) (example : Tensor) (ts ts' : Script E)
    (w w1 : World E) :
  load_midas_model E model_name weights_path w = (Ok base, w1) ->
  torch_randn E [1; 3; size; size]%Z = Ok example ->
  jit_trace E (DepthKornia_eval (DepthKornia_init base size size))
            example false false = Ok ts ->
  import_optimize_for_mobile E = Ok tt ->
  optimize_for_mobile E ts = Ok ts' ->
  export E model_name weights_path size out_path w
  = serialize E ts' out_path w1 /\
  (save_for_lite_interpreter E ts' out_path = Ok tt ->
   export E model_name weights_path size out_path w
   = (Ok tt, written w1 out_path ts')).
Proof.
  intros Hload Hrandn Htrace Himp Hopt.
  assert (Hexp : export E model_name weights_path size out_path w
                 = serialize E ts' out_path w1).
  { rewrite (export_after_load _ _ _ _ _ _ _ _ Hload).
    unfold export_stages, build_export_graph, optimize_for_constrained_runtime,
      try_except, bind, call, ret.
    now rewrite Hrandn, Htrace, Himp, Hopt. }
  split; [exact Hexp|].
  intros Hsave. rewrite Hexp.
  unfold serialize, bind, save, print, written. now rewrite Hsave.
Qed.

(** X16. Apart from the optimizer, every stage is fatal: when the
    example tensor cannot be made, when tracing raises, or when saving
    the graph the optimization stage gave raises, [export] ends with
    that exception and the world is as the load left it. *)
Theorem stage_failure_aborts_export (model_name : string)
    (weights_path : option string) (size : Z) (out_path : string)
    (base : Module) (e : Exn) (w w1 : World E) :
  load_midas_model E model_name weights_path w = (Ok base, w1) ->
  torch_randn E [1; 3; size; size]%Z = Raise e \/
  (exists example,
     torch_randn E [1; 3; size; size]%Z = Ok example /\
     (jit_trace E (DepthKornia_eval (DepthKornia_init base size size))
                example false false = Raise e \/
      exists ts ts',
        jit_trace E (DepthKornia_eval (DepthKornia_init base size size))
                  example false false = Ok ts /\
        optimize_for_constrained_runtime E ts w1 = (Ok ts', w1) /\
        save_for_lite_interpreter E ts' out_path = Raise e)) ->
  export E model_name weights_path size out_path w = (Raise e, w1).
Proof.
  intros Hload Hfail.
  rewrite (export_after_load _ _ _ _ _ _ _ _ Hload).
  unfold export_stages, build_export_graph.
  unfold bind at 1. unfold bind at 1. unfold call at 1.
  destruct Hfail as [Hr | (example & Hr & [Ht | (ts & ts' & Ht & Ho & Hs)])];
    rewrite Hr; [reflexivity| |].
  - unfold call at 1. now rewrite Ht.
  - unfold call at 1. rewrite Ht. unfold bind at 1. rewrite Ho.
    unfold serialize, bind, save. now rewrite Hs.
Qed.

(** The guard that passes has done nothing. *)
Lemma numpy_guard_passes_silently (w w' : World E) :
  numpy_guard E w = (Ok tt, w') -> w' = w.
Proof.
  unfold numpy_guard, try_except, bind, call, ret, eprint, sys_exit.
  repeat next_case; cbv beta iota; intros H;
    first [ discriminate H | injection H as <-; reflexivity ].
Qed.

(** X17. The startup guards come first and in order.  A numpy guard
    that exits ends the script there, whatever Kornia or the command
    line are.  Past it, a Kornia that cannot be imported gets one line
    on the error stream and the import error is raised again: exit
    status 1, no argument parsed, nothing exported. *)
Theorem startup_guards (w : World E) :
  (forall c w1, numpy_guard E w = (Exit c, w1) -> main E w = (Exit c, w1)) /\
  (forall e w1, numpy_guard E w = (Ok tt, w1) -> import_kornia E = Raise e ->
     main E w = (Raise e, warned w kornia_required) /\
     exit_status (fst (main E w)) = 1%Z).
Proof.
  split.
  - intros c w1 H. unfold main, bind. now rewrite H.
  - intros e w1 Hn Hk.
    assert (Hw := numpy_guard_passes_silently _ _ Hn). subst w1.
    assert (H : main E w = (Raise e, warned w kornia_required)).
    { unfold main, bind. rewrite Hn.
      unfold kornia_guard, try_except, call. now rewrite Hk. }
    split; [exact H | now rewrite H].
Qed.

(** X18. Once both guards have passed, the script is [export] on the
    four parsed arguments: the guards that pass have printed and
    written nothing. *)
Theorem main_is_export_on_parsed_arguments (w w1 : World E)
    (m : string) (wp : option string) (s : Z) (o : string) :
  numpy_guard E w = (Ok tt, w1) ->
  import_kornia E = Ok tt ->
  parse_args E = Ok (m, wp, s, o) ->
  main E w = export E m wp s o w.
Proof.
  intros Hn Hk Hp.
  assert (Hw := numpy_guard_passes_silently _ _ Hn). subst w1.
  unfold main, bind at 1. rewrite Hn.
  unfold bind at 1. unfold kornia_guard, try_except, call at 1. rewrite Hk.
  unfold bind at 1. unfold call at 1. now rewrite Hp.
Qed.

End PipelineInvariants.

(* ------------------------------------------------------------------ *)
(** * The further properties on the concrete environment *)

Lemma bytes_image_is_byte_image : byte_image Demo.bytes_image.
Proof.
  split; [reflexivity|].
  intros v [<- | [<- | [<- | []]]];
    [exists 255%nat | exists 0%nat | exists 128%nat]; split;
    solve [lia | reflexivity].
Qed.

Lemma dark_image_is_byte_image : byte_image Demo.dark_image.
Proof.
  split; [reflexivity|].
  intros v [<- | [<- | [<- | []]]];
    [exists 1%nat | exists 0%nat | exists 1%nat]; split;
    solve [lia | reflexivity].
Qed.

Lemma forward_changes_only_rank3_outputs_witness :
  forward Demo.matrix_net Demo.wrapper_1x1 Demo.bytes_image
  = Ok (mkTensor float32 [1; 1]%nat [ S754_finite false 9432605 (-22) ]).
Proof.
  destruct (forward_changes_only_rank3_outputs Demo.matrix_net
              Demo.wrapper_1x1 Demo.bytes_image
              (mkTensor float32 [1; 3; 1; 1]%nat
                 [ S754_finite false 9432605 (-22);
                   S754_finite true 8538404 (-22);
                   S754_finite false 14310716 (-25) ])
              (mkTensor float32 [1; 1]%nat [ S754_finite false 9432605 (-22) ])
              eq_refl eq_refl)
    as (y & Hy & _ & _ & _ & Hother).
  rewrite Hy. f_equal. apply Hother. discriminate.
Defined.

Lemma byte_image_rescaled_iff_some_byte_above_one_witness :
  normalize_dtype_and_range Demo.bytes_image
  = Ok (div_scalar (float Demo.bytes_image) F32.c255) /\
  normalize_dtype_and_range Demo.dark_image = Ok (float Demo.dark_image).
Proof.
  split.
  - apply (proj1 (byte_image_rescaled_iff_some_byte_above_one Demo.bytes_image
                    bytes_image_is_byte_image ltac:(discriminate))).
    exists 255%nat. split; [lia | left; reflexivity].
  - apply (proj2 (byte_image_rescaled_iff_some_byte_above_one Demo.dark_image
                    dark_image_is_byte_image ltac:(discriminate))).
    intros v [<- | [<- | [<- | []]]]; auto.
Defined.

Lemma byte_image_normalized_into_unit_range_witness :
  exists r, normalize_dtype_and_range Demo.bytes_image = Ok r /\
    forall v, In v (data r) -> in_unit_range v = true.
Proof.
  apply (byte_image_normalized_into_unit_range Demo.bytes_image
           bytes_image_is_byte_image).
  discriminate.
Defined.

Lemma standardize_is_per_channel_witness :
  exists r, standardize Demo.wrapper_1x1 Demo.unit_image = Ok r /\
    shape r = [1; 3; 1; 1]%nat /\
    nth 0 (data r) S754_nan
    = F32.div (F32.sub F32.one (F32.of_decimal 485 1000))
              (F32.of_decimal 229 1000).
Proof.
  destruct (standardize_is_per_channel Demo.wrapper_1x1 Demo.unit_image
              1 1 eq_refl eq_refl eq_refl)
    as (r & Hr & _ & Hs & _ & Hnth).
  exists r. split; [exact Hr|]. split; [exact Hs|].
  apply (Hnth 0%nat). simpl. lia.
Defined.

Lemma standardize_broadcasts_one_channel_witness :
  exists r, standardize Demo.wrapper_1x1 Demo.gray_image = Ok r /\
    shape r = [1; 3; 1; 1]%nat /\ List.length (data r) = 3%nat.
Proof.
  destruct (standardize_broadcasts_one_channel Demo.wrapper_1x1
              Demo.gray_image 1 1 eq_refl eq_refl eq_refl)
    as (r & Hr & Hs & Hl & _).
  exists r. repeat split; assumption.
Defined.

Lemma wrong_channel_count_raises_witness :
  exists e, exn_class e = "RuntimeError" /\
    forward Demo.std_env Demo.wrapper_1x1 Demo.two_channel_image = Raise e.
Proof.
  destruct (wrong_channel_count_raises Demo.std_env Demo.wrapper_1x1
              Demo.two_channel_image Demo.two_channel_image
              Demo.two_channel_image 1 2 1 1
              eq_refl eq_refl eq_refl ltac:(discriminate) ltac:(discriminate)
              eq_refl)
    as (e & Hc & _ & Hf).
  exists e. split; assumption.
Defined.


Lemma load_without_weights_witness :
  load_midas_model Demo.std_env "MiDaS_Small" (Some "") (Demo.start _)
  = (Ok (module_eval Demo.midas_small), Demo.start _).
Proof.
  apply (load_without_weights Demo.std_env "MiDaS_Small" "MiDaS_small"
           (Some "") (Demo.start _)).
  - reflexivity.
  - right. reflexivity.
Defined.

Lemma load_ignores_case_of_known_key_witness :
  load_midas_model Demo.std_env "DPT_LeViT_224" (Some "plain.pt") (Demo.start _)
  = load_midas_model Demo.std_env "dpt_levit_224" (Some "plain.pt") (Demo.start _).
Proof.
  apply (load_ignores_case_of_known_key Demo.std_env).
  - reflexivity.
  - discriminate.
Defined.


Lemma export_writes_iff_it_returns_witness :
  (Ok tt = Ok tt /\
   (exists ts, files Demo.exported = [] ++ [("out.ptl", ts)]) /\
   stdout Demo.exported = [] ++ ["Wrote out.ptl"]) \/
  (@Ok unit tt <> Ok tt /\ files Demo.exported = [] /\ stdout Demo.exported = []).
Proof.
  exact (export_writes_iff_it_returns Demo.std_env "midas_small" None 2
           "out.ptl" (Demo.start _) Demo.exported (Ok tt) eq_refl).
Defined.


Lemma optimized_graph_is_serialized_witness :
  export Demo.std_env "midas_small" None 2 "out.ptl" (Demo.start _)
  = (Ok tt, Demo.exported).
Proof.
  apply (optimized_graph_is_serialized Demo.std_env "midas_small" None 2
           "out.ptl" (module_eval Demo.midas_small) Demo.example_2x2
           Demo.traced_2x2 (Demo.Optimized Demo.traced_2x2)
           (Demo.start _) (Demo.start _));
    reflexivity.
Defined.

Lemma stage_failure_aborts_export_witness :
  export Demo.no_tracing "midas_small" None 2 "out.ptl" (Demo.start _)
  = (Raise Demo.StrideError, Demo.start _).
Proof.
  apply (stage_failure_aborts_export Demo.no_tracing "midas_small" None 2
           "out.ptl" (module_eval Demo.midas_small) Demo.StrideError
           (Demo.start _) (Demo.start _)).
  - reflexivity.
  - right. exists Demo.example_2x2. split; [reflexivity|].
    left. reflexivity.
Defined.

Lemma startup_guards_witness :
  main Demo.numpy2 (Demo.start _) = (Exit 1, mkWorld [] [numpy_error] []) /\
  main Demo.no_kornia (Demo.start _)
  = (Raise (Demo.ModuleNotFoundError "kornia"), mkWorld [] [kornia_required] []).
Proof.
  split.
  - apply (proj1 (startup_guards Demo.numpy2 (Demo.start _))). reflexivity.
  - apply (proj2 (startup_guards Demo.no_kornia (Demo.start _))
             (Demo.ModuleNotFoundError "kornia") (Demo.start _)); reflexivity.
Defined.

Lemma main_is_export_on_parsed_arguments_witness :
  main Demo.std_env (Demo.start _)
  = export Demo.std_env "midas_small" None 2 "depth_kornia.torchscript.ptl"
           (Demo.start _).
Proof.
  apply (main_is_export_on_parsed_arguments Demo.std_env
           (Demo.start _) (Demo.start _)); reflexivity.
Defined.
